(** * nv_sensors / camera.cpp : the SensorCamera lifecycle and acquisition loop

    A shallow embedding of [nv::SensorCamera] (src/nv_sensors/src/camera.cpp):
    [initialize], [start], [stop] and [run_camera].

    The DriveWorks SDK and the ROS publisher are external.  Every call into
    them is recorded as an [Event] that carries the arguments the code passes
    and the answer the environment gives; the answers come from a script
    ([StartEnv] for [start], one [FrameEnv] per loop iteration for
    [run_camera]).  The code itself runs in a small monad [M] that threads the
    object's fields, appends to the event trace and models [break],
    [continue], [return] and the exception thrown by [CHECK_DW_ERROR].
    The logging calls (ROS_INFO, ROS_WARN, ROS_ERROR, ROS_DEBUG) change
    neither the control flow nor the object and are left out. *)

From Stdlib Require Import ZArith List String Bool Lia.
From Stdlib Require Import Floats.SpecFloat.
From Stdlib Require Import Strings.Byte.
Import ListNotations.
Open Scope Z_scope.

(* ================================================================== *)
(** ** Machine data *)

(** Conversion of an integer value to [uint32_t]. *)
Definition uint32 (z : Z) : Z := z mod 2 ^ 32.

(** [dwTime_t] is a signed 64-bit count of microseconds. *)
Definition int64_range (t : Z) : Prop := - 2 ^ 63 <= t < 2 ^ 63.

(** [m_shrinkFactor] is compared with [1.0f]: an IEEE binary32 value. *)
Definition float := spec_float.
Definition prec32 : Z := 24.
Definition emax32 : Z := 128.

Definition float_one : float := S754_finite false 8388608 (-23).
Definition float_two : float := S754_finite false 8388608 (-22).

(** [a > b] on binary32: false when either side is a NaN. *)
Definition float_gt (a b : float) : bool := SFltb b a.
Definition float_le (a b : float) : bool := SFleb a b.

(** Integer to binary32 conversion (round to nearest even). *)
Definition float_of_uint32 (w : Z) : float :=
  binary_normalize prec32 emax32 w 0 false.

(** Binary32 to [uint32_t] conversion: truncation toward zero; the
    behaviour is undefined ([None]) when the truncated value does not fit. *)
Definition uint32_of_float (x : float) : option Z :=
  match x with
  | S754_zero _ => Some 0
  | S754_finite s m e =>
      let mag := Z.shiftl (Zpos m) e in
      let v := if s then - mag else mag in
      if (0 <=? v) && (v <? 2 ^ 32) then Some v else None
  | S754_infinity _ | S754_nan => None
  end.

(** [x /= f] for a [uint32_t] [x] and a [float] [f]: the operand is
    converted to binary32, divided, and the quotient converted back. *)
Definition div_assign (x : Z) (f : float) : option Z :=
  uint32_of_float (SFdiv prec32 emax32 (float_of_uint32 x) f).

(** Opaque SDK handles are pointers; the null pointer is [0]. *)
Definition handle := Z.
Definition DW_NULL_HANDLE : handle := 0.
Definition non_null (h : handle) : bool := negb (h =? DW_NULL_HANDLE).

(** The status codes the code distinguishes; every other enumerator of
    [dwStatus] is a [DW_OTHER] with its numeric code. *)
Inductive dwStatus : Type :=
| DW_SUCCESS
| DW_END_OF_STREAM
| DW_TIME_OUT
| DW_NOT_READY
| DW_OTHER (code : positive).

Definition dwStatus_eqb (a b : dwStatus) : bool :=
  match a, b with
  | DW_SUCCESS, DW_SUCCESS => true
  | DW_END_OF_STREAM, DW_END_OF_STREAM => true
  | DW_TIME_OUT, DW_TIME_OUT => true
  | DW_NOT_READY, DW_NOT_READY => true
  | DW_OTHER x, DW_OTHER y => Pos.eqb x y
  | _, _ => false
  end.

(** [status != DW_SUCCESS] *)
Definition failed (st : dwStatus) : bool := negb (dwStatus_eqb st DW_SUCCESS).

Inductive dwImageFormat : Type :=
| DW_IMAGE_FORMAT_UNKNOWN
| DW_IMAGE_FORMAT_RGBA_UINT8
| DW_IMAGE_FORMAT_NATIVE (tag : positive).

Inductive dwImageType : Type := DW_IMAGE_CPU | DW_IMAGE_NVMEDIA.

Record dwImageProperties : Type := mkProps {
  ip_width : Z;                (* uint32_t *)
  ip_height : Z;               (* uint32_t *)
  ip_format : dwImageFormat
}.

(** [dwImageProperties imageProperties{}] *)
Definition zero_props : dwImageProperties :=
  mkProps 0 0 DW_IMAGE_FORMAT_UNKNOWN.

Record dwSensorParams : Type := mkParams {
  protocol : string;
  parameters : string
}.

Inductive dwCameraOutputType : Type := DW_CAMERA_OUTPUT_NATIVE_PROCESSED.

(* ================================================================== *)
(** ** The published message (sensor_msgs/Image) *)

Record Image : Type := mkImage {
  header_seq : Z;              (* uint32 *)
  header_stamp_sec : Z;        (* uint32 *)
  header_stamp_nsec : Z;       (* uint32 *)
  header_frame_id : string;
  height : Z;                  (* uint32 *)
  width : Z;                   (* uint32 *)
  encoding : string;
  is_bigendian : Z;
  step : Z;                    (* uint32 *)
  data : list byte
}.

(** [new Image] *)
Definition new_Image : Image :=
  mkImage 0 0 0 EmptyString 0 0 EmptyString 0 0 [].

(** [sensor_msgs::image_encodings::RGBA8] *)
Definition RGBA8 : string := "rgba8".

(** [sensor_msgs::fillImage]: the four arguments are [uint32_t]; the
    payload is [step_arg * rows_arg] bytes copied from [data_arg]. *)
Definition fillImage (image : Image) (encoding_arg : string)
    (rows_arg cols_arg step_arg : Z) (data_arg : list byte) : Image :=
  let st0 := uint32 (uint32 step_arg * uint32 rows_arg) in
  mkImage (header_seq image) (header_stamp_sec image) (header_stamp_nsec image)
          (header_frame_id image)
          (uint32 rows_arg) (uint32 cols_arg) encoding_arg 0 (uint32 step_arg)
          (firstn (Z.to_nat st0) data_arg).

(* ================================================================== *)
(** ** The object *)

(** The data members camera.cpp uses (the class declaration is in
    camera.h, which is not part of the sources; the fields are the ones the
    member functions read and write). *)
Record SensorCamera : Type := mkCamera {
  m_sdk : handle;
  m_hal : handle;
  m_cameraRun : bool;
  m_camera : handle;                           (* m_camera[0] *)
  m_rgbaFrame : handle;                        (* m_rgbaFrame[0] *)
  m_imageResized : handle;
  m_imageTransformationEngine : handle;
  m_streamerNvmediaToCpuProcessed : handle;    (* [0] *)
  m_shrinkFactor : float;
  m_cameraThread : bool                        (* joinable() *)
}.

Definition set_sdk_hal (c : SensorCamera) (sdk hal : handle) :=
  mkCamera sdk hal (m_cameraRun c) (m_camera c) (m_rgbaFrame c)
    (m_imageResized c) (m_imageTransformationEngine c)
    (m_streamerNvmediaToCpuProcessed c) (m_shrinkFactor c) (m_cameraThread c).
Definition set_cameraRun (c : SensorCamera) (b : bool) :=
  mkCamera (m_sdk c) (m_hal c) b (m_camera c) (m_rgbaFrame c)
    (m_imageResized c) (m_imageTransformationEngine c)
    (m_streamerNvmediaToCpuProcessed c) (m_shrinkFactor c) (m_cameraThread c).
Definition set_camera (c : SensorCamera) (h : handle) :=
  mkCamera (m_sdk c) (m_hal c) (m_cameraRun c) h (m_rgbaFrame c)
    (m_imageResized c) (m_imageTransformationEngine c)
    (m_streamerNvmediaToCpuProcessed c) (m_shrinkFactor c) (m_cameraThread c).
Definition set_rgbaFrame (c : SensorCamera) (h : handle) :=
  mkCamera (m_sdk c) (m_hal c) (m_cameraRun c) (m_camera c) h
    (m_imageResized c) (m_imageTransformationEngine c)
    (m_streamerNvmediaToCpuProcessed c) (m_shrinkFactor c) (m_cameraThread c).
Definition set_imageResized (c : SensorCamera) (h : handle) :=
  mkCamera (m_sdk c) (m_hal c) (m_cameraRun c) (m_camera c) (m_rgbaFrame c)
    h (m_imageTransformationEngine c)
    (m_streamerNvmediaToCpuProcessed c) (m_shrinkFactor c) (m_cameraThread c).
Definition set_engine (c : SensorCamera) (h : handle) :=
  mkCamera (m_sdk c) (m_hal c) (m_cameraRun c) (m_camera c) (m_rgbaFrame c)
    (m_imageResized c) h
    (m_streamerNvmediaToCpuProcessed c) (m_shrinkFactor c) (m_cameraThread c).
Definition set_streamer (c : SensorCamera) (h : handle) :=
  mkCamera (m_sdk c) (m_hal c) (m_cameraRun c) (m_camera c) (m_rgbaFrame c)
    (m_imageResized c) (m_imageTransformationEngine c)
    h (m_shrinkFactor c) (m_cameraThread c).
Definition set_cameraThread (c : SensorCamera) (b : bool) :=
  mkCamera (m_sdk c) (m_hal c) (m_cameraRun c) (m_camera c) (m_rgbaFrame c)
    (m_imageResized c) (m_imageTransformationEngine c)
    (m_streamerNvmediaToCpuProcessed c) (m_shrinkFactor c) b.

(* ================================================================== *)
(** ** Calls into the SDK and the publisher *)

(** One constructor per external function the code calls, with the
    arguments passed and, where the code receives one, the status and the
    out-parameter the environment answered. *)
Inductive Event : Type :=
| dwSAL_createSensor (params : dwSensorParams) (hal : handle)
                     (st : dwStatus) (out : handle)
| dwSAL_releaseSensor (sensor : handle)
| dwSensorCamera_getImageProperties (ty : dwCameraOutputType) (sensor : handle)
                     (st : dwStatus) (out : dwImageProperties)
| dwImage_create (props : dwImageProperties) (sdk : handle)
                     (st : dwStatus) (out : handle)
| dwImage_destroy (img : handle)
| dwImageTransformation_initialize (sdk : handle) (st : dwStatus) (out : handle)
| dwImageTransformation_setBorderMode (engine : handle)
| dwImageTransformation_setInterpolationMode (engine : handle)
| dwImageStreamer_initialize (props : dwImageProperties) (ty : dwImageType)
                     (sdk : handle) (st : dwStatus) (out : handle)
| dwImageStreamer_release (streamer : handle)
| dwSensor_start (sensor : handle) (st : dwStatus)
| thread_spawn
| thread_join
| dwSensorCamera_readFrameNew (timeout : Z) (sensor : handle)
                     (st : dwStatus) (out : handle)
| dwSensorCamera_getImage (ty : dwCameraOutputType) (frame : handle)
                     (st : dwStatus) (out : handle)
| dwImage_copyConvert (dst src sdk : handle) (st : dwStatus)
| dwImageTransformation_copyFullImage (dst src engine : handle) (st : dwStatus)
| dwImageStreamer_producerSend (img streamer : handle) (st : dwStatus)
| dwImageStreamer_consumerReceive (timeout : Z) (streamer : handle)
                     (st : dwStatus) (out : handle)
| dwImage_getProperties (img : handle) (st : dwStatus) (out : dwImageProperties)
| dwImage_getCPU (img : handle) (st : dwStatus)
| dwImage_getTimestamp (img : handle) (out : Z)
| dwImageStreamer_consumerReturn (cpuFrame streamer : handle)
| dwImageStreamer_producerReturn (timeout : Z) (streamer : handle)
| dwSensorCamera_returnFrame (frame : handle)
| publish (msg : Image).

(* ================================================================== *)
(** ** The monad the member functions run in *)

(** Ways a block is left other than by falling through. *)
Inductive Abrupt : Type :=
| Break
| Continue
| Return (b : bool)
| Throw            (* std::runtime_error from CHECK_DW_ERROR *)
| Undefined.       (* undefined behaviour *)

Definition M (A : Type) : Type :=
  SensorCamera -> (A + Abrupt) * SensorCamera * list Event.

Definition ret {A} (a : A) : M A := fun c => (inl a, c, []).

Definition bind {A B} (m : M A) (k : A -> M B) : M B :=
  fun c =>
    match m c with
    | (inl a, c1, ev1) =>
        match k a c1 with
        | (r, c2, ev2) => (r, c2, ev1 ++ ev2)
        end
    | (inr x, c1, ev1) => (inr x, c1, ev1)
    end.

Notation "x <- m ;; k" := (bind m (fun x => k))
  (at level 61, m at next level, right associativity).
Notation "m ;; k" := (bind m (fun _ => k))
  (at level 61, right associativity).

Definition abrupt {A} (x : Abrupt) : M A := fun c => (inr x, c, []).
Definition get : M SensorCamera := fun c => (inl c, c, []).
Definition modify (f : SensorCamera -> SensorCamera) : M unit :=
  fun c => (inl tt, f c, []).
Definition call (e : Event) : M unit := fun c => (inl tt, c, [e]).

(** An out-parameter is written by the SDK only when the call succeeds. *)
Definition out_param {A} (st : dwStatus) (new old : A) : A :=
  if failed st then old else new.

(** The macro [CHECK_DW_ERROR(x)]: evaluate the call, throw on a status
    other than [DW_SUCCESS]. *)
Definition CHECK_DW_ERROR (x : Event) (result : dwStatus) : M unit :=
  call x ;;
  if failed result then abrupt Throw else ret tt.

(* ================================================================== *)
(** ** initialize, start, stop *)

(** [SensorCamera::initialize] *)
Definition initialize (context hal : handle) : M unit :=
  modify (fun c => set_sdk_hal c context hal) ;;
  modify (fun c => set_cameraRun c false).

(** The environment's answers to the SDK calls of one [start]. *)
Record StartEnv : Type := mkStartEnv {
  env_createSensor : dwStatus * handle;
  env_getImageProperties : dwStatus * dwImageProperties;
  env_create_rgbaFrame : dwStatus * handle;
  env_transformation_initialize : dwStatus * handle;
  env_create_imageResized : dwStatus * handle;
  env_streamer_initialize : dwStatus * handle;
  env_sensor_start : dwStatus
}.

Definition set_format (p : dwImageProperties) (f : dwImageFormat) :=
  mkProps (ip_width p) (ip_height p) f.
Definition set_width (p : dwImageProperties) (w : Z) :=
  mkProps w (ip_height p) (ip_format p).
Definition set_height (p : dwImageProperties) (h : Z) :=
  mkProps (ip_width p) h (ip_format p).

(** The block guarded by [m_shrinkFactor > 1.0f] in [start]: initialises
    the transformation engine and creates the resized image; yields the
    shrunk [imageProperties]. *)
Definition start_resize (env : StartEnv) (imageProperties : dwImageProperties)
  : M dwImageProperties :=
  c <- get ;;
  let '(st_init, engine) := env_transformation_initialize env in
  call (dwImageTransformation_initialize (m_sdk c) st_init engine) ;;
  modify (fun c => set_engine c
            (out_param st_init engine (m_imageTransformationEngine c))) ;;
  c <- get ;;
  call (dwImageTransformation_setBorderMode (m_imageTransformationEngine c)) ;;
  call (dwImageTransformation_setInterpolationMode
          (m_imageTransformationEngine c)) ;;
  match div_assign (ip_width imageProperties) (m_shrinkFactor c) with
  | None => abrupt Undefined
  | Some w =>
      let imageProperties := set_width imageProperties w in
      match div_assign (ip_height imageProperties) (m_shrinkFactor c) with
      | None => abrupt Undefined
      | Some h =>
          let imageProperties := set_height imageProperties h in
          let imageProperties :=
            set_format imageProperties DW_IMAGE_FORMAT_RGBA_UINT8 in
          let '(st, img) := env_create_imageResized env in
          modify (fun c => set_imageResized c
                    (out_param st img (m_imageResized c))) ;;
          CHECK_DW_ERROR (dwImage_create imageProperties (m_sdk c) st img) st ;;
          ret imageProperties
      end
  end.

(** [SensorCamera::start] *)
Definition start (paramsClient : dwSensorParams) (env : StartEnv) : M bool :=
  c <- get ;;
  let '(status, sensor) := env_createSensor env in
  call (dwSAL_createSensor paramsClient (m_hal c) status sensor) ;;
  modify (fun c => set_camera c (out_param status sensor (m_camera c))) ;;
  if failed status then abrupt (Return false) else
  c <- get ;;
  let imageProperties := zero_props in
  let '(status, props) := env_getImageProperties env in
  call (dwSensorCamera_getImageProperties DW_CAMERA_OUTPUT_NATIVE_PROCESSED
          (m_camera c) status props) ;;
  let imageProperties := out_param status props imageProperties in
  if failed status then
    call (dwSAL_releaseSensor (m_camera c)) ;;
    abrupt (Return false)
  else
  let imageProperties := set_format imageProperties DW_IMAGE_FORMAT_RGBA_UINT8 in
  let '(status, rgba) := env_create_rgbaFrame env in
  call (dwImage_create imageProperties (m_sdk c) status rgba) ;;
  modify (fun c => set_rgbaFrame c (out_param status rgba (m_rgbaFrame c))) ;;
  if failed status then
    call (dwSAL_releaseSensor (m_camera c)) ;;
    abrupt (Return false)
  else
  imageProperties <-
    (if float_gt (m_shrinkFactor c) float_one
     then start_resize env imageProperties
     else ret imageProperties) ;;
  c <- get ;;
  let '(status, streamer) := env_streamer_initialize env in
  call (dwImageStreamer_initialize imageProperties DW_IMAGE_CPU (m_sdk c)
          status streamer) ;;
  modify (fun c => set_streamer c
            (out_param status streamer (m_streamerNvmediaToCpuProcessed c))) ;;
  if failed status then
    (if non_null (m_imageResized c)
     then call (dwImage_destroy (m_imageResized c))
     else ret tt) ;;
    call (dwImage_destroy (m_rgbaFrame c)) ;;
    call (dwSAL_releaseSensor (m_camera c)) ;;
    abrupt (Return false)
  else
  let status := env_sensor_start env in
  call (dwSensor_start (m_camera c) status) ;;
  if failed status then
    call (dwSAL_releaseSensor (m_camera c)) ;;
    abrupt (Return false)
  else
  call thread_spawn ;;
  modify (fun c => set_cameraThread c true) ;;
  modify (fun c => set_cameraRun c true) ;;
  ret true.

(** [SensorCamera::stop] *)
Definition stop : M bool :=
  c <- get ;;
  if negb (m_cameraRun c) then abrupt (Return false) else
  modify (fun c => set_cameraRun c false) ;;
  (if m_cameraThread c
   then call thread_join ;; modify (fun c => set_cameraThread c false)
   else ret tt) ;;
  (if non_null (m_streamerNvmediaToCpuProcessed c)
   then call (dwImageStreamer_release (m_streamerNvmediaToCpuProcessed c))
   else ret tt) ;;
  (if non_null (m_rgbaFrame c)
   then call (dwImage_destroy (m_rgbaFrame c))
   else ret tt) ;;
  (if non_null (m_imageResized c)
   then call (dwImage_destroy (m_imageResized c))
   else ret tt) ;;
  (if non_null (m_camera c)
   then call (dwSAL_releaseSensor (m_camera c))
   else ret tt) ;;
  ret true.

(** How a member function that returns [bool] ends. *)
Inductive Outcome : Type :=
| Returned (b : bool)
| Threw
| UndefinedBehaviour.

Definition outcome_of (r : bool + Abrupt) : Outcome :=
  match r with
  | inl b => Returned b
  | inr (Return b) => Returned b
  | inr Throw => Threw
  | inr (Break | Continue | Undefined) => UndefinedBehaviour
  end.

(** Run a member function on an object: outcome, object afterwards, calls
    made. *)
Definition exec (m : M bool) (c : SensorCamera)
  : Outcome * SensorCamera * list Event :=
  match m c with
  | (r, c', ev) => (outcome_of r, c', ev)
  end.

Definition result_of {A} (x : A * SensorCamera * list Event) := fst (fst x).
Definition object_of {A} (x : A * SensorCamera * list Event) := snd (fst x).
Definition events_of {A} (x : A * SensorCamera * list Event) := snd x.

(* ================================================================== *)
(** ** run_camera *)

(** The environment's answers during one iteration of the loop, and the
    value of [m_cameraRun] the loop test reads (the flag is written by the
    thread that calls [stop]). *)
Record FrameEnv : Type := mkFrameEnv {
  env_cameraRun : bool;
  env_readFrame : dwStatus * handle;
  env_getImage : dwStatus * handle;
  env_copyConvert : dwStatus;
  env_copyFullImage : dwStatus;
  env_producerSend : dwStatus;
  env_consumerReceive : dwStatus * handle;
  env_getProperties : dwStatus * dwImageProperties;
  env_getCPU : dwStatus * list byte;     (* bytes at imgCPU->data[0] *)
  env_getTimestamp : Z                   (* dwTime_t *)
}.

Definition set_stamp (i : Image) (sec nsec : Z) :=
  mkImage (header_seq i) (uint32 sec) (uint32 nsec) (header_frame_id i)
          (height i) (width i) (encoding i) (is_bigendian i) (step i) (data i).
Definition set_seq (i : Image) (seq : Z) :=
  mkImage (uint32 seq) (header_stamp_sec i) (header_stamp_nsec i)
          (header_frame_id i)
          (height i) (width i) (encoding i) (is_bigendian i) (step i) (data i).
Definition set_frame_id (i : Image) (s : string) :=
  mkImage (header_seq i) (header_stamp_sec i) (header_stamp_nsec i) s
          (height i) (width i) (encoding i) (is_bigendian i) (step i) (data i).

(** Lines 272-286: the message built from the timestamp, the received
    buffer's properties and its pixel data.  [pair_id] is a local of the
    loop body.  [timestamp / 1000000L] and [timestamp % 1000000L] are
    64-bit signed operations (truncating); [4 * prop.width] is 32-bit
    unsigned. *)
Definition build_image (timestamp : Z) (prop : dwImageProperties)
    (pixels : list byte) : Image :=
  let pair_id := 0 in
  let image := new_Image in
  let image := set_stamp image (Z.quot timestamp 1000000)
                               (Z.rem timestamp 1000000 * 1000) in
  let image := set_seq image pair_id in
  let pair_id := uint32 (pair_id + 1) in
  let image := set_frame_id image "camera" in
  fillImage image RGBA8 (ip_height prop) (ip_width prop)
            (uint32 (4 * ip_width prop)) pixels.

(** The [if (m_shrinkFactor > 1.0f) ... else ...] of the loop body: sends a
    buffer into the streamer and receives the CPU frame.  [status] is the
    variable of the enclosing block, as left by [dwImage_copyConvert]. *)
Definition stream_to_cpu (env : FrameEnv) (status : dwStatus) : M handle :=
  c <- get ;;
  let streamer := m_streamerNvmediaToCpuProcessed c in
  if float_gt (m_shrinkFactor c) float_one then
    call (dwImageTransformation_copyFullImage (m_imageResized c) (m_rgbaFrame c)
            (m_imageTransformationEngine c) (env_copyFullImage env)) ;;
    if failed status then abrupt Break else
    CHECK_DW_ERROR
      (dwImageStreamer_producerSend (m_imageResized c) streamer
         (env_producerSend env))
      (env_producerSend env) ;;
    let '(status, cpuFrame) := env_consumerReceive env in
    call (dwImageStreamer_consumerReceive 33000 streamer status cpuFrame) ;;
    if failed status then abrupt Break else
    ret cpuFrame
  else
    let status := env_producerSend env in
    call (dwImageStreamer_producerSend (m_rgbaFrame c) streamer status) ;;
    if failed status then abrupt Break else
    let '(status, cpuFrame) := env_consumerReceive env in
    call (dwImageStreamer_consumerReceive 33000 streamer status cpuFrame) ;;
    if failed status then abrupt Break else
    ret cpuFrame.

(** The body of [while (m_cameraRun)]. *)
Definition loop_body (env : FrameEnv) : M unit :=
  c <- get ;;
  let '(status, frame) := env_readFrame env in
  call (dwSensorCamera_readFrameNew 33333 (m_camera c) status frame) ;;
  if dwStatus_eqb status DW_END_OF_STREAM then abrupt Break
  else if dwStatus_eqb status DW_TIME_OUT then abrupt Continue
  else if dwStatus_eqb status DW_NOT_READY then abrupt Continue
  else
  if failed status then abrupt Break
  else
    let outputType := DW_CAMERA_OUTPUT_NATIVE_PROCESSED in
    let '(status, img) := env_getImage env in
    call (dwSensorCamera_getImage outputType frame status img) ;;
    if failed status then abrupt Break else
    let status := env_copyConvert env in
    call (dwImage_copyConvert (m_rgbaFrame c) img (m_sdk c) status) ;;
    if failed status then abrupt Break else
    cpuFrame <- stream_to_cpu env status ;;
    let '(status, prop) := env_getProperties env in
    call (dwImage_getProperties cpuFrame status prop) ;;
    if failed status then abrupt Break else
    let '(status, pixels) := env_getCPU env in
    call (dwImage_getCPU cpuFrame status) ;;
    if failed status then abrupt Break else
    let timestamp := env_getTimestamp env in
    call (dwImage_getTimestamp img timestamp) ;;
    let image := build_image timestamp prop pixels in
    call (dwImageStreamer_consumerReturn cpuFrame
            (m_streamerNvmediaToCpuProcessed c)) ;;
    call (dwImageStreamer_producerReturn 33000
            (m_streamerNvmediaToCpuProcessed c)) ;;
    call (dwSensorCamera_returnFrame frame) ;;
    call (publish image).

(** How the worker's loop ends. *)
Inductive LoopEnd : Type :=
| FlagCleared      (* the loop test read m_cameraRun == false *)
| Broke            (* a break statement *)
| Thrown           (* an exception left run_camera *)
| Corrupt          (* undefined behaviour *)
| StillRunning.    (* the script is exhausted, the loop has not ended *)

(** [SensorCamera::run_camera], driven by one [FrameEnv] per iteration. *)
Fixpoint run_camera (script : list FrameEnv) (c : SensorCamera)
  : LoopEnd * SensorCamera * list Event :=
  match script with
  | [] => (StillRunning, c, [])
  | env :: rest =>
      if negb (env_cameraRun env) then (FlagCleared, c, [])
      else
        match loop_body env c with
        | (inl _, c1, ev) | (inr Continue, c1, ev) =>
            match run_camera rest c1 with
            | (r, c2, ev') => (r, c2, ev ++ ev')
            end
        | (inr Break, c1, ev) => (Broke, c1, ev)
        | (inr Throw, c1, ev) => (Thrown, c1, ev)
        | (inr (Return _), c1, ev) | (inr Undefined, c1, ev) => (Corrupt, c1, ev)
        end
  end.

(* ================================================================== *)
(** ** Observations on a trace of calls *)

(** Messages handed to the publisher, in order. *)
Definition published (ev : list Event) : list Image :=
  flat_map (fun e => match e with publish m => [m] | _ => [] end) ev.

(** Frames given back to the sensor, in order. *)
Definition returned_frames (ev : list Event) : list handle :=
  flat_map (fun e => match e with
                     | dwSensorCamera_returnFrame f => [f]
                     | _ => []
                     end) ev.

(** Frames the sensor handed out (successful reads), in order. *)
Definition read_frames (ev : list Event) : list handle :=
  flat_map (fun e => match e with
                     | dwSensorCamera_readFrameNew _ _ st f =>
                         if failed st then [] else [f]
                     | _ => []
                     end) ev.

(** Buffers given to [dwImageStreamer_producerSend], in order. *)
Definition sent_images (ev : list Event) : list handle :=
  flat_map (fun e => match e with
                     | dwImageStreamer_producerSend img _ _ => [img]
                     | _ => []
                     end) ev.

(** Calls that touch the resize stage. *)
Definition is_resize_call (e : Event) : bool :=
  match e with
  | dwImageTransformation_initialize _ _ _
  | dwImageTransformation_setBorderMode _
  | dwImageTransformation_setInterpolationMode _
  | dwImageTransformation_copyFullImage _ _ _ _ => true
  | _ => false
  end.

(** Resources of the SDK. *)
Inductive Resource : Type :=
| SensorHandle (h : handle)
| ImageBuffer (h : handle)
| TransformationEngine (h : handle)
| ChannelRegistration (h : handle).

(** Resources a trace allocates (successful creations), in order. *)
Definition allocated (ev : list Event) : list Resource :=
  flat_map (fun e => match e with
     | dwSAL_createSensor _ _ st h =>
         if failed st then [] else [SensorHandle h]
     | dwImage_create _ _ st h =>
         if failed st then [] else [ImageBuffer h]
     | dwImageTransformation_initialize _ st h =>
         if failed st then [] else [TransformationEngine h]
     | dwImageStreamer_initialize _ _ _ st h =>
         if failed st then [] else [ChannelRegistration h]
     | _ => []
     end) ev.

(** Resources a trace releases, in order. *)
Definition released (ev : list Event) : list Resource :=
  flat_map (fun e => match e with
     | dwSAL_releaseSensor h => [SensorHandle h]
     | dwImage_destroy h => [ImageBuffer h]
     | dwImageStreamer_release h => [ChannelRegistration h]
     | _ => []
     end) ev.

Definition Resource_eqb (a b : Resource) : bool :=
  match a, b with
  | SensorHandle x, SensorHandle y => x =? y
  | ImageBuffer x, ImageBuffer y => x =? y
  | TransformationEngine x, TransformationEngine y => x =? y
  | ChannelRegistration x, ChannelRegistration y => x =? y
  | _, _ => false
  end.

(** Resources a trace allocates and does not release. *)
Definition leaked (ev : list Event) : list Resource :=
  filter (fun r => negb (existsb (Resource_eqb r) (released ev)))
         (allocated ev).

(** The iteration gets as far as the producer send. *)
Definition reaches_send (env : FrameEnv) : Prop :=
  fst (env_readFrame env) = DW_SUCCESS /\
  fst (env_getImage env) = DW_SUCCESS /\
  env_copyConvert env = DW_SUCCESS.

(** Operations on the streamer (the Cross-Domain Channel), by side. *)
Inductive ChannelOp : Type :=
| ProducerSend
| ConsumerReceive
| ConsumerReturn
| ProducerReturn.

(** The streamer operations of a trace, in order. *)
Definition channel_ops (ev : list Event) : list ChannelOp :=
  flat_map (fun e => match e with
     | dwImageStreamer_producerSend _ _ _ => [ProducerSend]
     | dwImageStreamer_consumerReceive _ _ _ _ => [ConsumerReceive]
     | dwImageStreamer_consumerReturn _ _ => [ConsumerReturn]
     | dwImageStreamer_producerReturn _ _ => [ProducerReturn]
     | _ => []
     end) ev.

(** One full hand-over of a buffer through the streamer. *)
Definition channel_cycle : list ChannelOp :=
  [ProducerSend; ConsumerReceive; ConsumerReturn; ProducerReturn].

(** An iteration the loop enters whose read times out or is not ready. *)
Definition transient (env : FrameEnv) : Prop :=
  env_cameraRun env = true /\
  (fst (env_readFrame env) = DW_TIME_OUT \/
   fst (env_readFrame env) = DW_NOT_READY).

(** [x /= 2.0f] yields [x / 2] rounded down. *)
Definition halves (x : Z) : bool :=
  match div_assign x float_two with
  | Some y => y =? x / 2
  | None => false
  end.

(** [f] holds of every integer in [0, n). *)
Fixpoint all_below (f : Z -> bool) (n : nat) : bool :=
  match n with
  | O => true
  | S k => f (Z.of_nat k) && all_below f k
  end.

(** Every status of an iteration other than that of
    [dwImageTransformation_copyFullImage] is [DW_SUCCESS]. *)
Definition pipeline_ok (env : FrameEnv) : Prop :=
  fst (env_readFrame env) = DW_SUCCESS /\
  fst (env_getImage env) = DW_SUCCESS /\
  env_copyConvert env = DW_SUCCESS /\
  env_producerSend env = DW_SUCCESS /\
  fst (env_consumerReceive env) = DW_SUCCESS /\
  fst (env_getProperties env) = DW_SUCCESS /\
  fst (env_getCPU env) = DW_SUCCESS.

(** The message an iteration builds from its environment. *)
Definition image_of (env : FrameEnv) : Image :=
  build_image (env_getTimestamp env) (snd (env_getProperties env))
              (snd (env_getCPU env)).

(* ================================================================== *)
(** ** Sample objects and environments *)

Module Sample.

(** An object on which [initialize] has run, all handles null. *)
Definition camera (shrink : float) : SensorCamera :=
  mkCamera 100 101 false 0 0 0 0 0 shrink false.

Definition params : dwSensorParams := mkParams "camera.gmsl" "camera-type=ar0231".

(** Every SDK call of [start] succeeds; the sensor delivers 1920x1080. *)
Definition start_ok : StartEnv :=
  mkStartEnv (DW_SUCCESS, 1)
             (DW_SUCCESS, mkProps 1920 1080 (DW_IMAGE_FORMAT_NATIVE 1))
             (DW_SUCCESS, 2) (DW_SUCCESS, 3) (DW_SUCCESS, 4) (DW_SUCCESS, 5)
             DW_SUCCESS.

(** As [start_ok], but [dwSensor_start] fails. *)
Definition start_capture_fails : StartEnv :=
  mkStartEnv (DW_SUCCESS, 1)
             (DW_SUCCESS, mkProps 1920 1080 (DW_IMAGE_FORMAT_NATIVE 1))
             (DW_SUCCESS, 2) (DW_SUCCESS, 3) (DW_SUCCESS, 4) (DW_SUCCESS, 5)
             DW_NOT_READY.

(** The object after a successful [start]. *)
Definition running (shrink : float) : SensorCamera :=
  object_of (exec (start params start_ok) (camera shrink)).

Definition pixels : list byte :=
  [x01; x02; x03; x04; x05; x06; x07; x08; x09; x0a]%list.

(** An iteration in which every call succeeds: a [w] by 1 buffer with
    device timestamp [t]. *)
Definition frame_ok (t w : Z) : FrameEnv :=
  mkFrameEnv true (DW_SUCCESS, 10) (DW_SUCCESS, 11) DW_SUCCESS DW_SUCCESS
             DW_SUCCESS (DW_SUCCESS, 12)
             (DW_SUCCESS, mkProps w 1 DW_IMAGE_FORMAT_RGBA_UINT8)
             (DW_SUCCESS, pixels) t.

(** An iteration whose read ends with [st]. *)
Definition frame_read (st : dwStatus) : FrameEnv :=
  mkFrameEnv true (st, 10) (DW_SUCCESS, 11) DW_SUCCESS DW_SUCCESS
             DW_SUCCESS (DW_SUCCESS, 12)
             (DW_SUCCESS, mkProps 2 1 DW_IMAGE_FORMAT_RGBA_UINT8)
             (DW_SUCCESS, pixels) 1500250.

(** The read succeeds, [dwImage_copyConvert] fails. *)
Definition frame_convert_fails : FrameEnv :=
  mkFrameEnv true (DW_SUCCESS, 10) (DW_SUCCESS, 11) (DW_OTHER 7) DW_SUCCESS
             DW_SUCCESS (DW_SUCCESS, 12)
             (DW_SUCCESS, mkProps 2 1 DW_IMAGE_FORMAT_RGBA_UINT8)
             (DW_SUCCESS, pixels) 1500250.

(** Only [dwImageTransformation_copyFullImage] fails. *)
Definition frame_transform_fails : FrameEnv :=
  mkFrameEnv true (DW_SUCCESS, 10) (DW_SUCCESS, 11) DW_SUCCESS (DW_OTHER 7)
             DW_SUCCESS (DW_SUCCESS, 12)
             (DW_SUCCESS, mkProps 2 1 DW_IMAGE_FORMAT_RGBA_UINT8)
             (DW_SUCCESS, pixels) 1500250.

(** The read and the conversion succeed, the producer send fails. *)
Definition frame_send_fails : FrameEnv :=
  mkFrameEnv true (DW_SUCCESS, 10) (DW_SUCCESS, 11) DW_SUCCESS DW_SUCCESS
             (DW_OTHER 7) (DW_SUCCESS, 12)
             (DW_SUCCESS, mkProps 2 1 DW_IMAGE_FORMAT_RGBA_UINT8)
             (DW_SUCCESS, pixels) 1500250.

(** As [start_ok], but [dwImageStreamer_initialize] fails. *)
Definition start_streamer_fails : StartEnv :=
  mkStartEnv (DW_SUCCESS, 1)
             (DW_SUCCESS, mkProps 1920 1080 (DW_IMAGE_FORMAT_NATIVE 1))
             (DW_SUCCESS, 2) (DW_SUCCESS, 3) (DW_SUCCESS, 4) (DW_OTHER 7, 5)
             DW_SUCCESS.

(** As [start_ok], but [dwSAL_createSensor] fails. *)
Definition start_sensor_fails : StartEnv :=
  mkStartEnv (DW_OTHER 7, 1)
             (DW_SUCCESS, mkProps 1920 1080 (DW_IMAGE_FORMAT_NATIVE 1))
             (DW_SUCCESS, 2) (DW_SUCCESS, 3) (DW_SUCCESS, 4) (DW_SUCCESS, 5)
             DW_SUCCESS.

(** As [start_ok], but [dwSensorCamera_getImageProperties] fails. *)
Definition start_properties_fail : StartEnv :=
  mkStartEnv (DW_SUCCESS, 1)
             (DW_OTHER 7, mkProps 0 0 DW_IMAGE_FORMAT_UNKNOWN)
             (DW_SUCCESS, 2) (DW_SUCCESS, 3) (DW_SUCCESS, 4) (DW_SUCCESS, 5)
             DW_SUCCESS.

(** An iteration in which the loop test reads [m_cameraRun == false]. *)
Definition frame_stop : FrameEnv :=
  mkFrameEnv false (DW_SUCCESS, 10) (DW_SUCCESS, 11) DW_SUCCESS DW_SUCCESS
             DW_SUCCESS (DW_SUCCESS, 12)
             (DW_SUCCESS, mkProps 2 1 DW_IMAGE_FORMAT_RGBA_UINT8)
             (DW_SUCCESS, pixels) 1500250.

(** The first device timestamp whose seconds do not fit 32 bits. *)
Definition late_timestamp : Z := 4294967296000000.

(** The first width whose RGBA8 row length does not fit 32 bits. *)
Definition wide : Z := 1073741824.

End Sample.

(* ================================================================== *)
(** ** Basic facts *)

Lemma dwStatus_eqb_eq (a b : dwStatus) : dwStatus_eqb a b = true <-> a = b.
Proof.
  destruct a, b; simpl; split; intro H;
    try reflexivity; try discriminate.
  - apply Pos.eqb_eq in H. now subst.
  - injection H as ->. apply Pos.eqb_refl.
Qed.

Lemma failed_false (st : dwStatus) : failed st = false <-> st = DW_SUCCESS.
Proof.
  unfold failed. rewrite negb_false_iff. apply dwStatus_eqb_eq.
Qed.

Lemma failed_true (st : dwStatus) : failed st = true <-> st <> DW_SUCCESS.
Proof.
  unfold failed. rewrite negb_true_iff. split.
  - intros H E. apply dwStatus_eqb_eq in E. congruence.
  - intro H. destruct (dwStatus_eqb st DW_SUCCESS) eqn:E; [|reflexivity].
    apply dwStatus_eqb_eq in E. contradiction.
Qed.

Lemma uint32_small (z : Z) : 0 <= z < 2 ^ 32 -> uint32 z = z.
Proof. intro H. unfold uint32. now apply Z.mod_small. Qed.

Lemma uint32_range (z : Z) : 0 <= uint32 z < 2 ^ 32.
Proof. unfold uint32. apply Z.mod_pos_bound. lia. Qed.

Lemma published_app (a b : list Event) :
  published (a ++ b) = published a ++ published b.
Proof. apply flat_map_app. Qed.

Lemma returned_frames_app (a b : list Event) :
  returned_frames (a ++ b) = returned_frames a ++ returned_frames b.
Proof. apply flat_map_app. Qed.

(** Unfolding one iteration: expose the sequence of calls and split on the
    tests the code makes, in program order. *)
Ltac unfold_body :=
  cbv [loop_body stream_to_cpu CHECK_DW_ERROR bind call get ret abrupt modify
       result_of object_of events_of fst snd app image_of
       env_cameraRun env_readFrame env_getImage env_copyConvert
       env_copyFullImage env_producerSend env_consumerReceive
       env_getProperties env_getCPU env_getTimestamp].

Ltac split_test :=
  match goal with
  | H : ?b = _ |- context [if ?b then _ else _] => rewrite H
  | |- context [if ?b then _ else _] =>
      match type of b with
      | bool => let E := fresh "E" in destruct b eqn:E
      end
  end.

(** A test on concrete statuses that came out the impossible way. *)
Ltac absurd_test :=
  match goal with
  | E : failed _ = _ |- _ => cbv in E; discriminate E
  | E : dwStatus_eqb _ _ = _ |- _ => cbv in E; discriminate E
  | E : negb _ = _ |- _ => cbv in E; discriminate E
  end.

Ltac run_body :=
  unfold_body; repeat (split_test; try absurd_test; cbv beta iota).

Ltac open_env env :=
  let run := fresh "run" in
  let st := fresh "st" in let fr := fresh "fr" in
  let st1 := fresh "st1" in let img := fresh "img" in
  let st2 := fresh "st2" in let st3 := fresh "st3" in
  let st4 := fresh "st4" in
  let st5 := fresh "st5" in let cpu := fresh "cpu" in
  let st6 := fresh "st6" in let pr := fresh "pr" in
  let st7 := fresh "st7" in let px := fresh "px" in
  let t := fresh "t" in
  destruct env as
    [run [st fr] [st1 img] st2 st3 st4 [st5 cpu] [st6 pr] [st7 px] t];
  unfold pipeline_ok in *;
  cbn [fst snd env_cameraRun env_readFrame env_getImage env_copyConvert
       env_copyFullImage env_producerSend env_consumerReceive
       env_getProperties env_getCPU env_getTimestamp] in *.

(** An iteration never writes a field of the object. *)
Lemma loop_body_object (env : FrameEnv) (c : SensorCamera) :
  object_of (loop_body env c) = c.
Proof.
  open_env env. run_body; reflexivity.
Qed.

(** An iteration publishes at most one message, the one built from its
    environment, and it does so exactly when it runs to its end. *)
Lemma loop_body_published (env : FrameEnv) (c : SensorCamera) :
  match result_of (loop_body env c) with
  | inl _ => published (events_of (loop_body env c)) = [image_of env]
  | inr _ => published (events_of (loop_body env c)) = []
  end.
Proof.
  open_env env. run_body; reflexivity.
Qed.

Lemma uint32_idem (z : Z) : uint32 (uint32 z) = uint32 z.
Proof. apply uint32_small, uint32_range. Qed.

(* ================================================================== *)
(** ** Facts about one iteration and about the loop *)

(** When every checked call succeeds the iteration runs to its end. *)
Lemma loop_body_completes (env : FrameEnv) (c : SensorCamera) :
  pipeline_ok env -> result_of (loop_body env c) = inl tt.
Proof.
  intros Hok. open_env env.
  destruct Hok as (H1 & H2 & H3 & H4 & H5 & H6 & H7). subst.
  run_body; reflexivity.
Qed.

(** The loop after an iteration that ran to its end. *)
Lemma run_camera_cons_normal (env : FrameEnv) (rest : list FrameEnv)
    (c : SensorCamera) (u : unit) :
  env_cameraRun env = true ->
  result_of (loop_body env c) = inl u ->
  run_camera (env :: rest) c =
  (result_of (run_camera rest c), object_of (run_camera rest c),
   events_of (loop_body env c) ++ events_of (run_camera rest c)).
Proof.
  intros Hrun Hres. cbn [run_camera]. rewrite Hrun. cbn [negb].
  pose proof (loop_body_object env c) as Hobj.
  destruct (loop_body env c) as [[r c1] ev].
  cbv [result_of object_of events_of fst snd] in *. subst r c1.
  destruct (run_camera rest c) as [[r c2] ev']. reflexivity.
Qed.

(** The buffer an iteration sends into the streamer. *)
Lemma loop_sent_images (env : FrameEnv) (c : SensorCamera) :
  let buffer := if float_gt (m_shrinkFactor c) float_one
                then m_imageResized c else m_rgbaFrame c in
  Forall (eq buffer) (sent_images (events_of (loop_body env c))) /\
  (reaches_send env ->
   sent_images (events_of (loop_body env c)) = [buffer]).
Proof.
  cbv zeta. open_env env. unfold reaches_send.
  cbn [fst snd env_readFrame env_getImage env_copyConvert].
  destruct (float_gt (m_shrinkFactor c) float_one) eqn:Egt.
  - run_body; (split; [repeat constructor|]);
      intros (H1 & H2 & H3); subst; try absurd_test; reflexivity.
  - run_body; (split; [repeat constructor|]);
      intros (H1 & H2 & H3); subst; try absurd_test; reflexivity.
Qed.

Lemma loop_disabled_no_resize (env : FrameEnv) (c : SensorCamera) :
  float_gt (m_shrinkFactor c) float_one = false ->
  filter is_resize_call (events_of (loop_body env c)) = [].
Proof.
  intros Hgt. open_env env. run_body; reflexivity.
Qed.

(** Every published message is the one built in some iteration. *)
Lemma run_camera_published (script : list FrameEnv) :
  forall (c : SensorCamera) (m : Image),
    In m (published (events_of (run_camera script c))) ->
    exists env, In env script /\ m = image_of env.
Proof.
  induction script as [|env rest IH]; intros c m; cbn [run_camera].
  - simpl. tauto.
  - destruct (env_cameraRun env); cbn [negb]; [|simpl; tauto].
    pose proof (loop_body_published env c) as Hp.
    pose proof (loop_body_object env c) as Ho.
    destruct (loop_body env c) as [[r c1] ev].
    cbv [result_of object_of events_of fst snd] in *. subst c1.
    assert (Hrest : In m (published ev) \/
                    In m (published (snd (run_camera rest c))) ->
                    exists env0, In env0 (env :: rest) /\ m = image_of env0).
    { intros [Hin|Hin].
      - destruct r as [u|x]; rewrite Hp in Hin; simpl in Hin; [|tauto].
        destruct Hin as [<-|[]]. exists env. split; [now left|reflexivity].
      - destruct (IH c m Hin) as (env0 & Hin0 & ->).
        exists env0. split; [now right|reflexivity]. }
    destruct r as [u|[ | |b| | ]];
      try (destruct (run_camera rest c) as [[r2 c2] ev'] eqn:Er;
           cbn [snd] in *; rewrite published_app; intros Hin;
           apply in_app_or in Hin; apply Hrest; exact Hin);
      cbn [snd]; intros Hin; apply Hrest; left; exact Hin.
Qed.

(* ================================================================== *)
(** ** Facts about binary32 comparison *)

Lemma SFcompare_antisym (a b : float) :
  SFcompare b a = option_map CompOpp (SFcompare a b).
Proof.
  destruct a as [s|s| |s m e], b as [s'|s'| |s' m' e'];
    cbv [SFcompare option_map];
    try destruct s; try destruct s'; try reflexivity;
    rewrite (Z.compare_antisym e e');
    pose proof (Pos.compare_cont_antisym m m' Eq) as A;
    cbn [CompOpp] in A;
    destruct (e ?= e'); cbn [CompOpp]; try reflexivity;
    rewrite <- A; destruct (Pos.compare_cont Eq m m'); reflexivity.
Qed.

(** [f <= 1.0f] excludes [f > 1.0f]. *)
Lemma float_le_not_gt (f : float) :
  float_le f float_one = true -> float_gt f float_one = false.
Proof.
  unfold float_le, float_gt, SFleb, SFltb.
  rewrite (SFcompare_antisym f float_one).
  destruct (SFcompare f float_one) as [[ | | ]|]; cbv [option_map CompOpp];
    intros H; try discriminate H; reflexivity.
Qed.

(* ================================================================== *)
(** ** Facts about start *)

Ltac unfold_fn :=
  cbv [start start_resize stop initialize exec CHECK_DW_ERROR bind call get
       ret abrupt modify result_of object_of events_of fst snd app outcome_of
       env_createSensor env_getImageProperties env_create_rgbaFrame
       env_transformation_initialize env_create_imageResized
       env_streamer_initialize env_sensor_start
       set_sdk_hal set_cameraRun set_camera set_rgbaFrame set_imageResized
       set_engine set_streamer set_cameraThread
       m_sdk m_hal m_cameraRun m_camera m_rgbaFrame m_imageResized
       m_imageTransformationEngine m_streamerNvmediaToCpuProcessed
       m_shrinkFactor m_cameraThread].

Ltac open_start env :=
  let st1 := fresh "st1" in let sensor := fresh "sensor" in
  let st2 := fresh "st2" in let props := fresh "props" in
  let st3 := fresh "st3" in let rgba := fresh "rgba" in
  let st4 := fresh "st4" in let engine := fresh "engine" in
  let st5 := fresh "st5" in let resized := fresh "resized" in
  let st6 := fresh "st6" in let streamer := fresh "streamer" in
  let st7 := fresh "st7" in
  destruct env as [[st1 sensor] [st2 props] [st3 rgba] [st4 engine]
                     [st5 resized] [st6 streamer] st7];
  cbn [fst snd env_createSensor env_getImageProperties env_create_rgbaFrame
       env_transformation_initialize env_create_imageResized
       env_streamer_initialize env_sensor_start] in *.

Ltac open_camera c :=
  let sdk := fresh "sdk" in let hal := fresh "hal" in
  let run := fresh "run" in let cam := fresh "cam" in
  let rgba0 := fresh "rgba0" in let resized0 := fresh "resized0" in
  let engine0 := fresh "engine0" in let streamer0 := fresh "streamer0" in
  let shrink := fresh "shrink" in let thr := fresh "thr" in
  destruct c as [sdk hal run cam rgba0 resized0 engine0 streamer0 shrink thr];
  cbn [m_sdk m_hal m_cameraRun m_camera m_rgbaFrame m_imageResized
       m_imageTransformationEngine m_streamerNvmediaToCpuProcessed
       m_shrinkFactor m_cameraThread] in *.

(** Split on the tests of [start], in program order; the two float to
    integer conversions are split on whether they are defined. *)
Ltac step_fn :=
  match goal with
  | |- context [match div_assign ?x ?f with _ => _ end] =>
      let D := fresh "D" in destruct (div_assign x f) eqn:D
  | _ => split_test; try absurd_test
  end.

Ltac run_fn := unfold_fn; repeat (step_fn; cbv beta iota).

Ltac successes :=
  repeat match goal with
         | E : failed _ = false |- _ => apply failed_false in E; subst
         end.

(** [start] never writes [m_shrinkFactor]. *)
Lemma start_keeps_shrinkFactor
    (p : dwSensorParams) (env : StartEnv) (c : SensorCamera) :
  m_shrinkFactor (object_of (exec (start p env) c)) = m_shrinkFactor c.
Proof.
  open_start env. open_camera c. run_fn; reflexivity.
Qed.

(** With the resize disabled [start] makes no call to the resize stage,
    and a successful [start] creates the converted buffer and the streamer
    with the sensor's own dimensions. *)
Lemma start_disabled_no_resize
    (p : dwSensorParams) (env : StartEnv) (c : SensorCamera) :
  float_gt (m_shrinkFactor c) float_one = false ->
  filter is_resize_call (events_of (exec (start p env) c)) = [] /\
  (result_of (exec (start p env) c) = Returned true ->
   let full := set_format (snd (env_getImageProperties env))
                          DW_IMAGE_FORMAT_RGBA_UINT8 in
   let c' := object_of (exec (start p env) c) in
   In (dwImage_create full (m_sdk c) DW_SUCCESS (m_rgbaFrame c'))
      (events_of (exec (start p env) c)) /\
   In (dwImageStreamer_initialize full DW_IMAGE_CPU (m_sdk c) DW_SUCCESS
         (m_streamerNvmediaToCpuProcessed c'))
      (events_of (exec (start p env) c))).
Proof.
  intros Hgt. open_start env. open_camera c. cbv zeta. run_fn;
    (split; [reflexivity | intros H; try discriminate H]).
  successes.
  cbv [out_param failed dwStatus_eqb negb set_format ip_width ip_height].
  split; simpl; tauto.
Qed.

(** With the resize enabled a successful [start] has initialised the
    engine and created the resized buffer and the streamer with both
    dimensions divided by the factor. *)
Lemma start_enabled_resized
    (p : dwSensorParams) (env : StartEnv) (c : SensorCamera) :
  float_gt (m_shrinkFactor c) float_one = true ->
  result_of (exec (start p env) c) = Returned true ->
  let src := snd (env_getImageProperties env) in
  let c' := object_of (exec (start p env) c) in
  exists w h,
    div_assign (ip_width src) (m_shrinkFactor c) = Some w /\
    div_assign (ip_height src) (m_shrinkFactor c) = Some h /\
    let small := mkProps w h DW_IMAGE_FORMAT_RGBA_UINT8 in
    In (dwImageTransformation_initialize (m_sdk c)
          (fst (env_transformation_initialize env))
          (snd (env_transformation_initialize env)))
       (events_of (exec (start p env) c)) /\
    In (dwImage_create small (m_sdk c) DW_SUCCESS (m_imageResized c'))
       (events_of (exec (start p env) c)) /\
    In (dwImageStreamer_initialize small DW_IMAGE_CPU (m_sdk c) DW_SUCCESS
          (m_streamerNvmediaToCpuProcessed c'))
       (events_of (exec (start p env) c)).
Proof.
  intros Hgt. open_start env. open_camera c. cbv zeta. run_fn;
    intros H; try discriminate H.
  successes.
  cbv [out_param failed dwStatus_eqb negb set_format set_width set_height
       ip_width ip_height ip_format] in *.
  eexists _, _. split; [eassumption|]. split; [eassumption|].
  cbv zeta. repeat split; simpl; tauto.
Qed.

(** The failure branch of [dwImageStreamer_initialize] gives back all
    that [start] had allocated (resize disabled). *)
Lemma start_streamer_failure_releases
    (p : dwSensorParams) (env : StartEnv) (c : SensorCamera) :
  float_gt (m_shrinkFactor c) float_one = false ->
  m_imageResized c = DW_NULL_HANDLE ->
  fst (env_createSensor env) = DW_SUCCESS ->
  fst (env_getImageProperties env) = DW_SUCCESS ->
  fst (env_create_rgbaFrame env) = DW_SUCCESS ->
  fst (env_streamer_initialize env) <> DW_SUCCESS ->
  result_of (exec (start p env) c) = Returned false /\
  released (events_of (exec (start p env) c)) =
  [ImageBuffer (snd (env_create_rgbaFrame env));
   SensorHandle (snd (env_createSensor env))] /\
  leaked (events_of (exec (start p env) c)) = [].
Proof.
  intros Hgt Hnull H1 H2 H3 H5.
  open_start env. open_camera c.
  apply failed_true in H5. subst.
  run_fn; try discriminate.
  repeat split.
  cbv [leaked released allocated flat_map app].
  rewrite H5.
  cbv [failed dwStatus_eqb negb app filter existsb Resource_eqb orb].
  rewrite !Z.eqb_refl. reflexivity.
Qed.

(* ================================================================== *)
(** ** Properties of start and stop *)

(** C1 (resource symmetry of a failed [start]).  The code does not have
    the property at the capture-start step: when the sensor, the image
    properties, the converted buffer and the streamer were obtained and
    [dwSensor_start] then fails (resize disabled), [start] returns false
    having released the Sensor Handle only; the converted RGBA ImageBuffer
    and the Cross-Domain Channel registration stay allocated. *)
Theorem start_capture_failure_leaks
    (p : dwSensorParams) (env : StartEnv) (c : SensorCamera) :
  float_gt (m_shrinkFactor c) float_one = false ->
  fst (env_createSensor env) = DW_SUCCESS ->
  fst (env_getImageProperties env) = DW_SUCCESS ->
  fst (env_create_rgbaFrame env) = DW_SUCCESS ->
  fst (env_streamer_initialize env) = DW_SUCCESS ->
  env_sensor_start env <> DW_SUCCESS ->
  let r := exec (start p env) c in
  result_of r = Returned false /\
  released (events_of r) = [SensorHandle (snd (env_createSensor env))] /\
  leaked (events_of r) =
  [ImageBuffer (snd (env_create_rgbaFrame env));
   ChannelRegistration (snd (env_streamer_initialize env))].
Proof.
  intros Hgt H1 H2 H3 H5 H6.
  open_start env. open_camera c.
  apply failed_true in H6. subst. cbv zeta.
  run_fn.
  repeat split.
  cbv [leaked released allocated flat_map app filter existsb Resource_eqb].
  cbv [failed dwStatus_eqb negb app filter existsb Resource_eqb orb].
  rewrite Z.eqb_refl. reflexivity.
Qed.

Lemma start_capture_failure_leaks_witness :
  let r := exec (start Sample.params Sample.start_capture_fails)
                (Sample.camera float_one) in
  result_of r = Returned false /\
  released (events_of r) = [SensorHandle 1] /\
  leaked (events_of r) = [ImageBuffer 2; ChannelRegistration 5].
Proof.
  apply (start_capture_failure_leaks Sample.params Sample.start_capture_fails
           (Sample.camera float_one));
    try reflexivity.
  discriminate.
Defined.

(** The same failure with the resize enabled: the resized buffer and the
    transformation engine stay allocated as well. *)
Lemma capture_failure_with_resize :
  let r := exec (start Sample.params Sample.start_capture_fails)
                (Sample.camera float_two) in
  result_of r = Returned false /\
  leaked (events_of r) =
  [ImageBuffer 2; TransformationEngine 3; ImageBuffer 4;
   ChannelRegistration 5].
Proof. vm_compute. split; reflexivity. Qed.

(** In the resize block a failed [dwImage_create] does not make [start]
    return false: [CHECK_DW_ERROR] throws. *)
Lemma resized_create_failure_throws :
  result_of
    (exec (start Sample.params
             (mkStartEnv (DW_SUCCESS, 1)
                (DW_SUCCESS, mkProps 1920 1080 (DW_IMAGE_FORMAT_NATIVE 1))
                (DW_SUCCESS, 2) (DW_SUCCESS, 3) (DW_OTHER 7, 4)
                (DW_SUCCESS, 5) DW_SUCCESS))
          (Sample.camera float_two)) = Threw.
Proof. vm_compute. reflexivity. Qed.

(** C7 (resize gating).  With a shrink factor [<= 1.0] neither [start] nor
    an iteration of the loop makes any call to the resize stage, the
    converted buffer and the streamer are created with the sensor's
    dimensions, and the converted buffer is what is sent.  With a shrink
    factor [> 1.0] a successful [start] has created the resized buffer with
    width and height [width / factor] and [height / factor] converted to
    integers, the streamer with the same dimensions, and the resized buffer
    is what is sent.  Factor 2.0 turns 1920 and 1080 into 960 and 540. *)
Theorem resize_gating
    (p : dwSensorParams) (env : StartEnv) (fenv : FrameEnv)
    (c : SensorCamera) :
  let f := m_shrinkFactor c in
  let r := exec (start p env) c in
  let c' := object_of r in
  let src := snd (env_getImageProperties env) in
  let sent := sent_images (events_of (loop_body fenv c')) in
  (float_le f float_one = true ->
   filter is_resize_call (events_of r) = [] /\
   filter is_resize_call (events_of (loop_body fenv c')) = [] /\
   Forall (eq (m_rgbaFrame c')) sent /\
   (reaches_send fenv -> sent = [m_rgbaFrame c']) /\
   (result_of r = Returned true ->
    let full := set_format src DW_IMAGE_FORMAT_RGBA_UINT8 in
    In (dwImage_create full (m_sdk c) DW_SUCCESS (m_rgbaFrame c'))
       (events_of r) /\
    In (dwImageStreamer_initialize full DW_IMAGE_CPU (m_sdk c) DW_SUCCESS
          (m_streamerNvmediaToCpuProcessed c'))
       (events_of r))) /\
  (float_gt f float_one = true ->
   Forall (eq (m_imageResized c')) sent /\
   (reaches_send fenv -> sent = [m_imageResized c']) /\
   (result_of r = Returned true ->
    exists w h,
      div_assign (ip_width src) f = Some w /\
      div_assign (ip_height src) f = Some h /\
      let small := mkProps w h DW_IMAGE_FORMAT_RGBA_UINT8 in
      In (dwImageTransformation_initialize (m_sdk c)
            (fst (env_transformation_initialize env))
            (snd (env_transformation_initialize env)))
         (events_of r) /\
      In (dwImage_create small (m_sdk c) DW_SUCCESS (m_imageResized c'))
         (events_of r) /\
      In (dwImageStreamer_initialize small DW_IMAGE_CPU (m_sdk c) DW_SUCCESS
            (m_streamerNvmediaToCpuProcessed c'))
         (events_of r))) /\
  (div_assign 1920 float_two = Some 960 /\
   div_assign 1080 float_two = Some 540).
Proof.
  cbv zeta.
  pose proof (start_keeps_shrinkFactor p env c) as Hf.
  pose proof (loop_sent_images fenv (object_of (exec (start p env) c)))
    as Hsent.
  cbv zeta in Hsent. rewrite Hf in Hsent.
  split; [|split].
  - intros Hle. apply float_le_not_gt in Hle.
    rewrite Hle in Hsent. destruct Hsent as [Hall Hone].
    destruct (start_disabled_no_resize p env c Hle) as [Hno Hok].
    repeat split; try assumption.
    + apply loop_disabled_no_resize. now rewrite Hf.
    + apply (Hok H).
    + apply (Hok H).
  - intros Hgt. rewrite Hgt in Hsent. destruct Hsent as [Hall Hone].
    repeat split; try assumption.
    intros Hok. exact (start_enabled_resized p env c Hgt Hok).
  - split; vm_compute; reflexivity.
Qed.

Lemma resize_gating_witness :
  let fenv := Sample.frame_ok 1500250 2 in
  (filter is_resize_call
     (events_of (exec (start Sample.params Sample.start_ok)
                      (Sample.camera float_one))) = [] /\
   sent_images (events_of (loop_body fenv (Sample.running float_one))) = [2]) /\
  (sent_images (events_of (loop_body fenv (Sample.running float_two))) = [4] /\
   exists w h,
     div_assign 1920 float_two = Some w /\
     div_assign 1080 float_two = Some h /\
     In (dwImage_create (mkProps w h DW_IMAGE_FORMAT_RGBA_UINT8) 100
           DW_SUCCESS 4)
        (events_of (exec (start Sample.params Sample.start_ok)
                         (Sample.camera float_two)))).
Proof.
  cbv zeta. split.
  - pose proof (resize_gating Sample.params Sample.start_ok
                  (Sample.frame_ok 1500250 2) (Sample.camera float_one)) as G.
    cbv zeta in G. destruct G as [G _].
    destruct (G eq_refl) as (G1 & _ & _ & G4 & _).
    split; [exact G1|].
    exact (G4 (conj eq_refl (conj eq_refl eq_refl))).
  - pose proof (resize_gating Sample.params Sample.start_ok
                  (Sample.frame_ok 1500250 2) (Sample.camera float_two)) as G.
    cbv zeta in G. destruct G as [_ [G _]].
    destruct (G eq_refl) as (_ & G2 & G3).
    split; [exact (G2 (conj eq_refl (conj eq_refl eq_refl)))|].
    destruct (G3 eq_refl) as (w & h & Hw & Hh & _ & Hc & _).
    exists w, h. repeat split; assumption.
Defined.

(** C8 ([stop] when not running).  When [m_cameraRun] is false [stop]
    returns false, makes no call and leaves the object as it is; and for
    every object, a [stop] that follows a [stop] returns false in the same
    way. *)
Theorem stop_when_not_running (c : SensorCamera) :
  (m_cameraRun c = false -> exec stop c = (Returned false, c, [])) /\
  exec stop (object_of (exec stop c)) =
  (Returned false, object_of (exec stop c), []).
Proof.
  split.
  - intros H. open_camera c. subst. reflexivity.
  - open_camera c.
    unfold_fn. destruct run; cbn [negb]; cbv beta iota.
    + repeat (split_test; try absurd_test; cbv beta iota); reflexivity.
    + reflexivity.
Qed.

Lemma stop_when_not_running_witness :
  exec stop (Sample.camera float_one) =
  (Returned false, Sample.camera float_one, []) /\
  result_of (exec stop (Sample.running float_one)) = Returned true /\
  result_of (exec stop (object_of (exec stop (Sample.running float_one)))) =
  Returned false.
Proof.
  split; [|split].
  - exact (proj1 (stop_when_not_running (Sample.camera float_one)) eq_refl).
  - reflexivity.
  - exact (f_equal result_of
             (proj2 (stop_when_not_running (Sample.running float_one)))).
Defined.

(* ================================================================== *)
(** ** Properties of the acquisition loop *)

(** C5 (dispatch on the outcome of the frame read).  In an iteration the
    loop enters, end-of-stream ends the loop after the read; a time-out or
    not-ready makes the read the iteration's only call and the loop goes on
    with the next iteration; any other status but success ends the loop
    after the read; success goes on to [dwSensorCamera_getImage] on the
    frame. *)
Theorem read_outcome_dispatch
    (env : FrameEnv) (rest : list FrameEnv) (c : SensorCamera) :
  env_cameraRun env = true ->
  let st := fst (env_readFrame env) in
  let frame := snd (env_readFrame env) in
  let read := dwSensorCamera_readFrameNew 33333 (m_camera c) st frame in
  match st with
  | DW_END_OF_STREAM => run_camera (env :: rest) c = (Broke, c, [read])
  | DW_TIME_OUT | DW_NOT_READY =>
      run_camera (env :: rest) c =
      (result_of (run_camera rest c), object_of (run_camera rest c),
       read :: events_of (run_camera rest c))
  | DW_OTHER _ => run_camera (env :: rest) c = (Broke, c, [read])
  | DW_SUCCESS =>
      exists ev,
        events_of (run_camera (env :: rest) c) =
        read :: dwSensorCamera_getImage DW_CAMERA_OUTPUT_NATIVE_PROCESSED frame
                  (fst (env_getImage env)) (snd (env_getImage env)) :: ev
  end.
Proof.
  intros Hrun. open_env env. subst. cbv zeta.
  cbn [run_camera env_cameraRun negb].
  destruct st.
  - run_body;
      destruct (run_camera rest c) as [[r c2] ev'] eqn:Er; cbv beta iota;
      eexists; reflexivity.
  - run_body. reflexivity.
  - run_body. destruct (run_camera rest c) as [[r c2] ev']. reflexivity.
  - run_body. destruct (run_camera rest c) as [[r c2] ev']. reflexivity.
  - run_body. reflexivity.
Qed.

Lemma read_outcome_dispatch_witness :
  let c := Sample.running float_one in
  let next := Sample.frame_read DW_END_OF_STREAM in
  run_camera [Sample.frame_read DW_END_OF_STREAM; next] c =
  (Broke, c, [dwSensorCamera_readFrameNew 33333 1 DW_END_OF_STREAM 10]) /\
  run_camera [Sample.frame_read DW_TIME_OUT; next] c =
  (Broke, c, [dwSensorCamera_readFrameNew 33333 1 DW_TIME_OUT 10;
              dwSensorCamera_readFrameNew 33333 1 DW_END_OF_STREAM 10]) /\
  run_camera [Sample.frame_read DW_NOT_READY; next] c =
  (Broke, c, [dwSensorCamera_readFrameNew 33333 1 DW_NOT_READY 10;
              dwSensorCamera_readFrameNew 33333 1 DW_END_OF_STREAM 10]) /\
  run_camera [Sample.frame_read (DW_OTHER 7); next] c =
  (Broke, c, [dwSensorCamera_readFrameNew 33333 1 (DW_OTHER 7) 10]).
Proof.
  cbv zeta. split; [|split; [|split]].
  - exact (read_outcome_dispatch (Sample.frame_read DW_END_OF_STREAM)
             [Sample.frame_read DW_END_OF_STREAM]
             (Sample.running float_one) eq_refl).
  - exact (read_outcome_dispatch (Sample.frame_read DW_TIME_OUT)
             [Sample.frame_read DW_END_OF_STREAM]
             (Sample.running float_one) eq_refl).
  - exact (read_outcome_dispatch (Sample.frame_read DW_NOT_READY)
             [Sample.frame_read DW_END_OF_STREAM]
             (Sample.running float_one) eq_refl).
  - exact (read_outcome_dispatch (Sample.frame_read (DW_OTHER 7))
             [Sample.frame_read DW_END_OF_STREAM]
             (Sample.running float_one) eq_refl).
Defined.

(** C9 (a failed producer send ends the loop).  When the iteration gets
    as far as the send and [dwImageStreamer_producerSend] fails, the send
    is the last call the loop makes, whatever iterations would follow:
    with the resize enabled the resized buffer was sent and the loop is left
    by the exception of [CHECK_DW_ERROR]; with the resize disabled the
    converted buffer was sent and the loop is left by [break]. *)
Theorem producer_send_failure_exits
    (env : FrameEnv) (rest : list FrameEnv) (c : SensorCamera) :
  env_cameraRun env = true ->
  fst (env_readFrame env) = DW_SUCCESS ->
  fst (env_getImage env) = DW_SUCCESS ->
  env_copyConvert env = DW_SUCCESS ->
  env_producerSend env <> DW_SUCCESS ->
  let frame := snd (env_readFrame env) in
  let img := snd (env_getImage env) in
  let streamer := m_streamerNvmediaToCpuProcessed c in
  let before :=
    [dwSensorCamera_readFrameNew 33333 (m_camera c) DW_SUCCESS frame;
     dwSensorCamera_getImage DW_CAMERA_OUTPUT_NATIVE_PROCESSED frame
       DW_SUCCESS img;
     dwImage_copyConvert (m_rgbaFrame c) img (m_sdk c) DW_SUCCESS] in
  if float_gt (m_shrinkFactor c) float_one then
    run_camera (env :: rest) c =
    (Thrown, c,
     before ++
     [dwImageTransformation_copyFullImage (m_imageResized c) (m_rgbaFrame c)
        (m_imageTransformationEngine c) (env_copyFullImage env);
      dwImageStreamer_producerSend (m_imageResized c) streamer
        (env_producerSend env)])
  else
    run_camera (env :: rest) c =
    (Broke, c,
     before ++
     [dwImageStreamer_producerSend (m_rgbaFrame c) streamer
        (env_producerSend env)]).
Proof.
  intros Hrun H1 H2 H3 H4. open_env env.
  apply failed_true in H4.
  subst. cbv zeta.
  cbn [run_camera env_cameraRun negb].
  destruct (float_gt (m_shrinkFactor c) float_one) eqn:Egt;
    run_body; reflexivity.
Qed.

Lemma producer_send_failure_exits_witness :
  let next := Sample.frame_ok 1500250 2 in
  result_of (run_camera [Sample.frame_send_fails; next]
                        (Sample.running float_two)) = Thrown /\
  result_of (run_camera [Sample.frame_send_fails; next]
                        (Sample.running float_one)) = Broke /\
  published (events_of (run_camera [Sample.frame_send_fails; next]
                                   (Sample.running float_two))) = [] /\
  published (events_of (run_camera [Sample.frame_send_fails; next]
                                   (Sample.running float_one))) = [].
Proof.
  cbv zeta.
  pose proof (producer_send_failure_exits Sample.frame_send_fails
                [Sample.frame_ok 1500250 2] (Sample.running float_two)
                eq_refl eq_refl eq_refl eq_refl
                (fun H => eq_ind (DW_OTHER 7)
                            (fun s => match s with
                                      | DW_OTHER _ => True
                                      | _ => False
                                      end) I DW_SUCCESS H)) as H2.
  pose proof (producer_send_failure_exits Sample.frame_send_fails
                [Sample.frame_ok 1500250 2] (Sample.running float_one)
                eq_refl eq_refl eq_refl eq_refl
                (fun H => eq_ind (DW_OTHER 7)
                            (fun s => match s with
                                      | DW_OTHER _ => True
                                      | _ => False
                                      end) I DW_SUCCESS H)) as H1.
  cbv zeta in H1, H2.
  change (float_gt (m_shrinkFactor (Sample.running float_two)) float_one)
    with true in H2.
  change (float_gt (m_shrinkFactor (Sample.running float_one)) float_one)
    with false in H1.
  cbv beta iota in H1, H2.
  rewrite H1, H2. repeat split.
Defined.

(** C3 (frame round-trip).  The code does not have the property on the
    fatal paths: for a frame that was read successfully,
    [dwSensorCamera_returnFrame] is called once when the iteration runs to
    its end and not at all when the iteration leaves the loop by [break] or
    by an exception. *)
Theorem fatal_exit_leaks_frame (env : FrameEnv) (c : SensorCamera) :
  fst (env_readFrame env) = DW_SUCCESS ->
  read_frames (events_of (loop_body env c)) = [snd (env_readFrame env)] /\
  match result_of (loop_body env c) with
  | inl _ => returned_frames (events_of (loop_body env c)) =
             [snd (env_readFrame env)]
  | inr _ => returned_frames (events_of (loop_body env c)) = []
  end.
Proof.
  intros H1. open_env env. subst.
  run_body; split; reflexivity.
Qed.

Lemma fatal_exit_leaks_frame_witness :
  let c := Sample.running float_one in
  run_camera [Sample.frame_convert_fails] c =
  (Broke, c,
   [dwSensorCamera_readFrameNew 33333 1 DW_SUCCESS 10;
    dwSensorCamera_getImage DW_CAMERA_OUTPUT_NATIVE_PROCESSED 10 DW_SUCCESS 11;
    dwImage_copyConvert 2 11 100 (DW_OTHER 7)]) /\
  read_frames (events_of (loop_body Sample.frame_convert_fails c)) = [10] /\
  returned_frames (events_of (loop_body Sample.frame_convert_fails c)) = [].
Proof.
  cbv zeta. split; [reflexivity|].
  exact (fatal_exit_leaks_frame Sample.frame_convert_fails
           (Sample.running float_one) eq_refl).
Defined.

(** C4 (failure of the resize).  The code does not have the property:
    with the resize enabled and every other call succeeding, a failed
    [dwImageTransformation_copyFullImage] changes nothing; the iteration
    runs to its end, the resized buffer is sent into the streamer, the
    message is published and the loop goes on with the next iteration.  The
    test after the call reads the status left by [dwImage_copyConvert]. *)
Theorem transform_failure_not_checked (env : FrameEnv) (c : SensorCamera) :
  float_gt (m_shrinkFactor c) float_one = true ->
  pipeline_ok env ->
  env_copyFullImage env <> DW_SUCCESS ->
  result_of (loop_body env c) = inl tt /\
  In (dwImageTransformation_copyFullImage (m_imageResized c) (m_rgbaFrame c)
        (m_imageTransformationEngine c) (env_copyFullImage env))
     (events_of (loop_body env c)) /\
  sent_images (events_of (loop_body env c)) = [m_imageResized c] /\
  published (events_of (loop_body env c)) = [image_of env] /\
  (env_cameraRun env = true ->
   forall rest : list FrameEnv,
     run_camera (env :: rest) c =
     (result_of (run_camera rest c), object_of (run_camera rest c),
      events_of (loop_body env c) ++ events_of (run_camera rest c))).
Proof.
  intros Hgt Hok Hfail.
  assert (Hend : result_of (loop_body env c) = inl tt)
    by (apply loop_body_completes; exact Hok).
  split; [exact Hend|].
  split; [|split; [|split]].
  - open_env env. destruct Hok as (H1 & H2 & H3 & H4 & H5 & H6 & H7).
    subst. run_body. simpl. tauto.
  - open_env env. destruct Hok as (H1 & H2 & H3 & H4 & H5 & H6 & H7).
    subst. run_body. reflexivity.
  - pose proof (loop_body_published env c) as Hp.
    rewrite Hend in Hp. exact Hp.
  - intros Hrun rest. apply (run_camera_cons_normal env rest c tt Hrun Hend).
Qed.

Lemma transform_failure_not_checked_witness :
  let c := Sample.running float_two in
  let env := Sample.frame_transform_fails in
  result_of (loop_body env c) = inl tt /\
  In (dwImageTransformation_copyFullImage 4 2 3 (DW_OTHER 7))
     (events_of (loop_body env c)) /\
  sent_images (events_of (loop_body env c)) = [4] /\
  published (events_of (loop_body env c)) = [image_of env] /\
  result_of (run_camera [env; Sample.frame_read DW_END_OF_STREAM] c) = Broke /\
  published
    (events_of (run_camera [env; Sample.frame_read DW_END_OF_STREAM] c)) =
  [image_of env].
Proof.
  cbv zeta.
  assert (Hgt : float_gt (m_shrinkFactor (Sample.running float_two))
                         float_one = true) by reflexivity.
  assert (Hok : pipeline_ok Sample.frame_transform_fails)
    by (unfold pipeline_ok; repeat split).
  assert (Hfail : env_copyFullImage Sample.frame_transform_fails
                  <> DW_SUCCESS) by discriminate.
  destruct (transform_failure_not_checked Sample.frame_transform_fails
              (Sample.running float_two) Hgt Hok Hfail)
    as (H1 & H2 & H3 & H4 & H5).
  split; [exact H1|]. split; [exact H2|]. split; [exact H3|].
  split; [exact H4|].
  rewrite (H5 eq_refl [Sample.frame_read DW_END_OF_STREAM]).
  split; reflexivity.
Defined.

(** C2 (sequence ids).  The code does not have the property: [pair_id]
    is a local of the loop body, set to 0 in every iteration, so over N
    consecutive successful iterations the N published messages all carry
    sequence id 0. *)
Theorem sequence_ids_all_zero (script : list FrameEnv) (c : SensorCamera) :
  Forall (fun env => env_cameraRun env = true /\ pipeline_ok env) script ->
  map header_seq (published (events_of (run_camera script c))) =
  List.repeat 0 (List.length script).
Proof.
  induction 1 as [|env rest [Hrun Hok] _ IH].
  - reflexivity.
  - rewrite (run_camera_cons_normal env rest c tt Hrun
               (loop_body_completes env c Hok)).
    cbv [events_of snd] in *.
    rewrite published_app, map_app, IH.
    pose proof (loop_body_published env c) as Hp.
    rewrite (loop_body_completes env c Hok) in Hp.
    cbv [events_of snd] in Hp. rewrite Hp. reflexivity.
Qed.

Lemma sequence_ids_all_zero_witness :
  map header_seq
    (published
       (events_of
          (run_camera [Sample.frame_ok 1500250 2; Sample.frame_ok 1533583 2]
                      (Sample.running float_one)))) = [0; 0].
Proof.
  apply (sequence_ids_all_zero
           [Sample.frame_ok 1500250 2; Sample.frame_ok 1533583 2]
           (Sample.running float_one)).
  repeat constructor.
Defined.

(** C6 (timestamp conversion), as the code has it.  Every published
    message was built in one iteration, and when that iteration's device
    timestamp [t] lies in [0, 2^32 * 1,000,000) its seconds field is
    [t / 1,000,000] rounded down and its nanoseconds field is
    [(t mod 1,000,000) * 1000]. *)
Theorem timestamp_conversion
    (script : list FrameEnv) (c : SensorCamera) (m : Image) :
  In m (published (events_of (run_camera script c))) ->
  exists env,
    In env script /\ m = image_of env /\
    let t := env_getTimestamp env in
    (0 <= t < 2 ^ 32 * 1000000 ->
     header_stamp_sec m = t / 1000000 /\
     header_stamp_nsec m = (t mod 1000000) * 1000).
Proof.
  intros Hin. destruct (run_camera_published script c m Hin) as (env & He & ->).
  exists env. split; [exact He|]. split; [reflexivity|].
  cbv zeta. intros Ht.
  cbv [image_of build_image fillImage set_stamp set_seq set_frame_id
       header_stamp_sec header_stamp_nsec new_Image].
  rewrite Z.quot_div_nonneg, Z.rem_mod_nonneg by lia.
  pose proof (Z.mod_pos_bound (env_getTimestamp env) 1000000 ltac:(lia)).
  split; apply uint32_small.
  - split; [apply Z.div_pos; lia|]. apply Z.div_lt_upper_bound; lia.
  - lia.
Qed.

(** The example of the specification: t = 1,500,250 gives 1 s and
    500,250,000 ns. *)
Lemma timestamp_conversion_witness :
  let m := image_of (Sample.frame_ok 1500250 2) in
  In m (published
          (events_of (run_camera [Sample.frame_ok 1500250 2]
                                 (Sample.running float_one)))) /\
  header_stamp_sec m = 1 /\
  header_stamp_nsec m = 500250000.
Proof.
  cbv zeta.
  assert (Hin : In (image_of (Sample.frame_ok 1500250 2))
                   (published
                      (events_of (run_camera [Sample.frame_ok 1500250 2]
                                             (Sample.running float_one)))))
    by (left; reflexivity).
  split; [exact Hin|].
  destruct (timestamp_conversion _ _ _ Hin) as (env & Henv & _ & Hconv).
  destruct Henv as [<-|[]].
  apply Hconv. cbv. split; [discriminate|reflexivity].
Defined.

(** C6 as stated, for every [t], does not hold: the seconds field has 32
    bits, so at t = 2^32 * 1,000,000 the message carries 0 seconds; and
    the division truncates, so at t = -1 it carries 0 seconds, not -1. *)
Lemma timestamp_conversion_counterexample :
  (int64_range Sample.late_timestamp /\
   published
     (events_of (run_camera [Sample.frame_ok Sample.late_timestamp 2]
                            (Sample.running float_one))) =
   [image_of (Sample.frame_ok Sample.late_timestamp 2)] /\
   header_stamp_sec (image_of (Sample.frame_ok Sample.late_timestamp 2)) = 0 /\
   Sample.late_timestamp / 1000000 = 4294967296) /\
  (int64_range (-1) /\
   header_stamp_sec (image_of (Sample.frame_ok (-1) 2)) = 0 /\
   header_stamp_nsec (image_of (Sample.frame_ok (-1) 2)) = 4294966296 /\
   -1 / 1000000 = -1 /\
   (-1 mod 1000000) * 1000 = 999999000) /\
  ~ (forall t : Z,
        int64_range t ->
        forall m : Image,
          In m (published
                  (events_of (run_camera [Sample.frame_ok t 2]
                                         (Sample.running float_one)))) ->
          header_stamp_sec m = t / 1000000 /\
          header_stamp_nsec m = (t mod 1000000) * 1000).
Proof.
  split; [|split].
  - unfold int64_range. repeat split; try reflexivity; vm_compute; congruence.
  - unfold int64_range. repeat split; try reflexivity; vm_compute; congruence.
  - intros H.
    assert (R : int64_range Sample.late_timestamp)
      by (unfold int64_range; split; vm_compute; congruence).
    destruct (H Sample.late_timestamp R
                (image_of (Sample.frame_ok Sample.late_timestamp 2))
                (or_introl eq_refl)) as [Hsec _].
    vm_compute in Hsec. discriminate Hsec.
Qed.

(** C10 (fields of a published message), as the code has it.  Every
    published message was built in one iteration; it carries frame id
    "camera" and encoding "rgba8"; when the received buffer's properties
    are 32-bit values it carries their width and height and the row stride
    [4 * width] reduced modulo 2^32; the stride is [4 * width] itself when
    [width < 2^30]. *)
Theorem published_image_fields
    (script : list FrameEnv) (c : SensorCamera) (m : Image) :
  In m (published (events_of (run_camera script c))) ->
  exists env,
    In env script /\ m = image_of env /\
    let prop := snd (env_getProperties env) in
    header_frame_id m = "camera"%string /\
    encoding m = "rgba8"%string /\
    (0 <= ip_width prop < 2 ^ 32 -> 0 <= ip_height prop < 2 ^ 32 ->
     width m = ip_width prop /\
     height m = ip_height prop /\
     step m = (4 * ip_width prop) mod 2 ^ 32) /\
    (0 <= ip_width prop < 2 ^ 30 -> step m = 4 * ip_width prop).
Proof.
  intros Hin. destruct (run_camera_published script c m Hin) as (env & He & ->).
  exists env. split; [exact He|]. split; [reflexivity|].
  cbv zeta.
  cbv [image_of build_image fillImage set_stamp set_seq set_frame_id
       header_frame_id encoding width height step new_Image RGBA8].
  rewrite uint32_idem.
  split; [reflexivity|]. split; [reflexivity|]. split.
  - intros Hw Hh. rewrite !uint32_small by lia. repeat split.
  - intros Hw. apply uint32_small. lia.
Qed.

Lemma published_image_fields_witness :
  let m := image_of (Sample.frame_ok 1500250 2) in
  In m (published
          (events_of (run_camera [Sample.frame_ok 1500250 2]
                                 (Sample.running float_two)))) /\
  header_frame_id m = "camera"%string /\
  encoding m = "rgba8"%string /\
  width m = 2 /\ height m = 1 /\ step m = 8.
Proof.
  cbv zeta.
  assert (Hin : In (image_of (Sample.frame_ok 1500250 2))
                   (published
                      (events_of (run_camera [Sample.frame_ok 1500250 2]
                                             (Sample.running float_two)))))
    by (left; reflexivity).
  split; [exact Hin|].
  destruct (published_image_fields _ _ _ Hin)
    as (env & Henv & _ & Hid & Henc & Hdim & Hstep).
  destruct Henv as [<-|[]].
  split; [exact Hid|]. split; [exact Henc|].
  assert (Hw : 0 <= 2 < 2 ^ 32) by (cbv; split; [discriminate|reflexivity]).
  assert (Hh : 0 <= 1 < 2 ^ 32) by (cbv; split; [discriminate|reflexivity]).
  destruct (Hdim Hw Hh) as (Hwidth & Hheight & _).
  split; [exact Hwidth|]. split; [exact Hheight|].
  apply Hstep. cbv. split; [discriminate|reflexivity].
Defined.

(** C10 as stated, for every successful iteration, does not hold: the
    stride is computed in 32 bits, so a received buffer of width 2^30
    yields a message with that width and row stride 0. *)
Lemma published_image_fields_counterexample :
  (0 <= Sample.wide < 2 ^ 32 /\
   published
     (events_of (run_camera [Sample.frame_ok 1500250 Sample.wide]
                            (Sample.running float_one))) =
   [image_of (Sample.frame_ok 1500250 Sample.wide)] /\
   width (image_of (Sample.frame_ok 1500250 Sample.wide)) = Sample.wide /\
   step (image_of (Sample.frame_ok 1500250 Sample.wide)) = 0) /\
  ~ (forall w : Z,
        0 <= w < 2 ^ 32 ->
        forall m : Image,
          In m (published
                  (events_of (run_camera [Sample.frame_ok 1500250 w]
                                         (Sample.running float_one)))) ->
          step m = 4 * width m).
Proof.
  split.
  - repeat split; try reflexivity; vm_compute; congruence.
  - intros H.
    assert (R : 0 <= Sample.wide < 2 ^ 32)
      by (split; vm_compute; congruence).
    pose proof (H Sample.wide R
                  (image_of (Sample.frame_ok 1500250 Sample.wide))
                  (or_introl eq_refl)) as Hstep.
    vm_compute in Hstep. discriminate Hstep.
Qed.

(* ================================================================== *)
(** ** Further facts about one iteration and about the loop *)

Lemma read_frames_app (a b : list Event) :
  read_frames (a ++ b) = read_frames a ++ read_frames b.
Proof. apply flat_map_app. Qed.

Lemma channel_ops_app (a b : list Event) :
  channel_ops (a ++ b) = channel_ops a ++ channel_ops b.
Proof. apply flat_map_app. Qed.

Lemma allocated_app (a b : list Event) :
  allocated (a ++ b) = allocated a ++ allocated b.
Proof. apply flat_map_app. Qed.

Lemma released_app (a b : list Event) :
  released (a ++ b) = released a ++ released b.
Proof. apply flat_map_app. Qed.

(** An iteration ends by falling through, [continue], [break] or the
    exception; never otherwise. *)
Lemma loop_body_result (env : FrameEnv) (c : SensorCamera) :
  result_of (loop_body env c) = inl tt \/
  result_of (loop_body env c) = inr Continue \/
  result_of (loop_body env c) = inr Break \/
  result_of (loop_body env c) = inr Throw.
Proof. open_env env. run_body; tauto. Qed.

Lemma run_camera_object (script : list FrameEnv) (c : SensorCamera) :
  object_of (run_camera script c) = c.
Proof.
  induction script as [|env rest IH]; cbn [run_camera]; [reflexivity|].
  destruct (env_cameraRun env); cbn [negb]; [|reflexivity].
  pose proof (loop_body_object env c) as Ho.
  destruct (loop_body env c) as [[r c1] ev].
  cbv [object_of fst snd] in Ho. subst c1.
  destruct r as [u|[ | |b| | ]]; try reflexivity;
    destruct (run_camera rest c) as [[r2 c2] ev'];
    cbv [object_of fst snd] in *; exact IH.
Qed.

(** One step of the loop, by the way the iteration ends. *)
Lemma run_camera_cons (env : FrameEnv) (rest : list FrameEnv)
    (c : SensorCamera) :
  env_cameraRun env = true ->
  run_camera (env :: rest) c =
  match result_of (loop_body env c) with
  | inl _ | inr Continue =>
      (result_of (run_camera rest c), c,
       events_of (loop_body env c) ++ events_of (run_camera rest c))
  | inr Break => (Broke, c, events_of (loop_body env c))
  | inr Throw => (Thrown, c, events_of (loop_body env c))
  | inr _ => (Corrupt, c, events_of (loop_body env c))
  end.
Proof.
  intros Hrun. cbn [run_camera]. rewrite Hrun. cbn [negb].
  pose proof (loop_body_object env c) as Ho.
  pose proof (run_camera_object rest c) as Hr.
  destruct (loop_body env c) as [[r c1] ev].
  cbv [result_of object_of events_of fst snd] in *. subst c1.
  destruct (run_camera rest c) as [[r2 c2] ev'].
  cbv [fst snd] in *. subst c2.
  destruct r as [u|[ | |b| | ]]; reflexivity.
Qed.

Lemma run_camera_stop (env : FrameEnv) (rest : list FrameEnv)
    (c : SensorCamera) :
  env_cameraRun env = false ->
  run_camera (env :: rest) c = (FlagCleared, c, []).
Proof. intros H. cbn [run_camera]. rewrite H. reflexivity. Qed.

Lemma loop_body_resources (env : FrameEnv) (c : SensorCamera) :
  allocated (events_of (loop_body env c)) = [] /\
  released (events_of (loop_body env c)) = [].
Proof. open_env env. run_body; split; reflexivity. Qed.

Lemma run_camera_resources (script : list FrameEnv) (c : SensorCamera) :
  allocated (events_of (run_camera script c)) = [] /\
  released (events_of (run_camera script c)) = [].
Proof.
  induction script as [|env rest [IHa IHr]]; [split; reflexivity|].
  destruct (env_cameraRun env) eqn:Hrun.
  - rewrite (run_camera_cons env rest c Hrun).
    destruct (loop_body_resources env c) as [Ha Hr].
    destruct (result_of (loop_body env c)) as [u|[ | |b| | ]];
      cbv [events_of snd] in *;
      rewrite ?allocated_app, ?released_app, ?Ha, ?Hr, ?IHa, ?IHr;
      split; reflexivity.
  - rewrite (run_camera_stop env rest c Hrun). split; reflexivity.
Qed.

(** Frames read and frames returned in one iteration. *)
Lemma loop_body_frames (env : FrameEnv) (c : SensorCamera) :
  let ev := events_of (loop_body env c) in
  let frame := snd (env_readFrame env) in
  match result_of (loop_body env c) with
  | inl _ => read_frames ev = [frame] /\ returned_frames ev = [frame]
  | inr Continue => read_frames ev = [] /\ returned_frames ev = []
  | inr _ => (read_frames ev = [] \/ read_frames ev = [frame]) /\
             returned_frames ev = []
  end.
Proof.
  cbv zeta. open_env env. destruct st; run_body; split; auto.
Qed.

(** Streamer operations of one iteration. *)
Lemma loop_body_channel (env : FrameEnv) (c : SensorCamera) :
  let ops := channel_ops (events_of (loop_body env c)) in
  match result_of (loop_body env c) with
  | inl _ => ops = channel_cycle
  | inr Continue => ops = []
  | inr _ => ops = [] \/ ops = [ProducerSend] \/
             ops = [ProducerSend; ConsumerReceive]
  end.
Proof.
  cbv zeta. open_env env. run_body; auto.
Qed.

(** An iteration runs to its end exactly when every checked call
    succeeds. *)
Lemma loop_body_ok_iff (env : FrameEnv) (c : SensorCamera) :
  result_of (loop_body env c) = inl tt <-> pipeline_ok env.
Proof.
  split; [|apply loop_body_completes].
  open_env env. destruct st; run_body; intros H; try discriminate H;
    successes; repeat split; reflexivity.
Qed.

(** An iteration is left by [continue] exactly when the read times out or
    is not ready, and the read is then its only call. *)
Lemma loop_body_continue_iff (env : FrameEnv) (c : SensorCamera) :
  result_of (loop_body env c) = inr Continue <->
  (fst (env_readFrame env) = DW_TIME_OUT \/
   fst (env_readFrame env) = DW_NOT_READY).
Proof.
  open_env env. destruct st; run_body; split; intros H;
    try discriminate H; try (destruct H as [H|H]; discriminate H); auto.
Qed.

Lemma loop_body_continue_events (env : FrameEnv) (c : SensorCamera) :
  result_of (loop_body env c) = inr Continue ->
  events_of (loop_body env c) =
  [dwSensorCamera_readFrameNew 33333 (m_camera c) (fst (env_readFrame env))
     (snd (env_readFrame env))].
Proof.
  open_env env. destruct st; run_body; intros H; try discriminate H;
    reflexivity.
Qed.

Lemma published_count (script : list FrameEnv) (c : SensorCamera) :
  List.length (published (events_of (run_camera script c))) =
  List.length (returned_frames (events_of (run_camera script c))).
Proof.
  induction script as [|env rest IH]; [reflexivity|].
  destruct (env_cameraRun env) eqn:Hrun.
  - rewrite (run_camera_cons env rest c Hrun).
    pose proof (loop_body_frames env c) as Hf. cbv zeta in Hf.
    pose proof (loop_body_published env c) as Hp.
    destruct (result_of (loop_body env c)) as [u|[ | |b| | ]];
      cbv [events_of snd] in *; destruct Hf as [_ Hret];
      rewrite ?published_app, ?returned_frames_app, ?length_app, ?Hp, ?Hret,
              ?IH; reflexivity.
  - rewrite (run_camera_stop env rest c Hrun). reflexivity.
Qed.

Lemma all_below_spec (f : Z -> bool) (n : nat) :
  all_below f n = true -> forall x, 0 <= x < Z.of_nat n -> f x = true.
Proof.
  induction n as [|k IH]; intros H x Hx; [lia|].
  cbn [all_below] in H. apply andb_prop in H. destruct H as [Hk Hrest].
  destruct (Z.eq_dec x (Z.of_nat k)) as [->|Hne]; [exact Hk|].
  apply IH; [exact Hrest|lia].
Qed.

Lemma halves_below_8192 : all_below halves (Z.to_nat 8192) = true.
Proof. vm_compute. reflexivity. Qed.

(* ================================================================== *)
(** ** Further facts about start and stop *)

Lemma stop_not_running (c : SensorCamera) :
  m_cameraRun c = false -> exec stop c = (Returned false, c, []).
Proof. intros H. open_camera c. subst. reflexivity. Qed.

Lemma non_null_true (h : handle) : h <> DW_NULL_HANDLE -> non_null h = true.
Proof.
  intros H. unfold non_null. apply negb_true_iff. apply Z.eqb_neq. exact H.
Qed.

(** The worker is spawned exactly when [start] returns true; the running
    flag and the thread are written only then. *)
Lemma start_flags (p : dwSensorParams) (env : StartEnv) (c : SensorCamera) :
  let r := exec (start p env) c in
  (In thread_spawn (events_of r) <-> result_of r = Returned true) /\
  (result_of r = Returned true ->
   m_cameraRun (object_of r) = true /\ m_cameraThread (object_of r) = true) /\
  (result_of r <> Returned true ->
   m_cameraRun (object_of r) = m_cameraRun c /\
   m_cameraThread (object_of r) = m_cameraThread c).
Proof.
  cbv zeta. open_start env. open_camera c. run_fn;
    cbn [In];
    (split; [split; [intros H | intros H; try discriminate H]|
             split; [intros H; try discriminate H | intros H]]);
    try (repeat match goal with
                | H : _ \/ _ |- _ => destruct H as [H|H]
                | H : False |- _ => destruct H
                end; discriminate);
    try (split; reflexivity); try reflexivity; try tauto;
    try (now elim H).
Qed.

(** A successful [start] with the resize disabled, spelled out. *)
Lemma start_success_disabled
    (p : dwSensorParams) (env : StartEnv) (c : SensorCamera) :
  float_gt (m_shrinkFactor c) float_one = false ->
  result_of (exec (start p env) c) = Returned true ->
  let sensor := snd (env_createSensor env) in
  let rgba := snd (env_create_rgbaFrame env) in
  let streamer := snd (env_streamer_initialize env) in
  let full := set_format (snd (env_getImageProperties env))
                         DW_IMAGE_FORMAT_RGBA_UINT8 in
  exec (start p env) c =
  (Returned true,
   mkCamera (m_sdk c) (m_hal c) true sensor rgba (m_imageResized c)
            (m_imageTransformationEngine c) streamer (m_shrinkFactor c) true,
   [dwSAL_createSensor p (m_hal c) DW_SUCCESS sensor;
    dwSensorCamera_getImageProperties DW_CAMERA_OUTPUT_NATIVE_PROCESSED
      sensor DW_SUCCESS (snd (env_getImageProperties env));
    dwImage_create full (m_sdk c) DW_SUCCESS rgba;
    dwImageStreamer_initialize full DW_IMAGE_CPU (m_sdk c) DW_SUCCESS
      streamer;
    dwSensor_start sensor DW_SUCCESS;
    thread_spawn]).
Proof.
  intros Hgt. open_start env. open_camera c. cbv zeta. run_fn;
    intros H; try discriminate H.
  successes.
  cbv [out_param failed dwStatus_eqb negb]. reflexivity.
Qed.


(** What a session leaks when the loop touches no resource: what [start]
    allocated and [stop] did not release. *)
Lemma leaked_session (a b d : list Event) :
  allocated b = [] -> released b = [] -> allocated d = [] ->
  released a = [] ->
  leaked (a ++ b ++ d) =
  filter (fun r => negb (existsb (Resource_eqb r) (released d))) (allocated a).
Proof.
  intros Hb Hb' Hd Ha. unfold leaked.
  rewrite !allocated_app, !released_app, Hb, Hb', Hd, Ha.
  cbn [app]. rewrite app_nil_r. reflexivity.
Qed.

(* ================================================================== *)
(** ** Further properties of initialize, start and stop *)

(** X1 ([initialize]).  [initialize] makes no SDK call; afterwards the
    object holds the two handles it was given and is not running, a second
    [initialize] with the same handles changes nothing, [stop] returns
    false without a call, and the first call of a following [start] hands
    the stored [hal] to [dwSAL_createSensor]. *)
Theorem initialize_resets
    (context hal : handle) (p : dwSensorParams) (env : StartEnv)
    (c : SensorCamera) :
  let c' := object_of (initialize context hal c) in
  events_of (initialize context hal c) = [] /\
  m_sdk c' = context /\ m_hal c' = hal /\ m_cameraRun c' = false /\
  object_of (initialize context hal c') = c' /\
  exec stop c' = (Returned false, c', []) /\
  exists rest,
    events_of (exec (start p env) c') =
    dwSAL_createSensor p hal (fst (env_createSensor env))
      (snd (env_createSensor env)) :: rest.
Proof.
  cbv zeta. open_camera c. open_start env.
  repeat split.
  run_fn; eexists; reflexivity.
Qed.

(** X2 (failure of [dwSAL_createSensor]).  When the sensor cannot be
    created [start] returns false after that one call and leaves every
    field of the object as it was. *)
Theorem create_sensor_failure_is_clean
    (p : dwSensorParams) (env : StartEnv) (c : SensorCamera) :
  fst (env_createSensor env) <> DW_SUCCESS ->
  exec (start p env) c =
  (Returned false, c,
   [dwSAL_createSensor p (m_hal c) (fst (env_createSensor env))
      (snd (env_createSensor env))]).
Proof.
  intros H. open_start env. open_camera c. apply failed_true in H.
  run_fn. cbv [out_param]. rewrite H. reflexivity.
Qed.

Lemma create_sensor_failure_is_clean_witness :
  exec (start Sample.params Sample.start_sensor_fails)
       (Sample.camera float_two) =
  (Returned false, Sample.camera float_two,
   [dwSAL_createSensor Sample.params 101 (DW_OTHER 7) 1]).
Proof.
  apply (create_sensor_failure_is_clean Sample.params
           Sample.start_sensor_fails (Sample.camera float_two)).
  discriminate.
Defined.

(** X3 (failure before the resize block).  When the sensor was created and
    either the image properties cannot be read or the converted buffer
    cannot be created, [start] returns false having released the sensor; no
    resource stays allocated and the resize stage was not touched, whatever
    the shrink factor. *)
Theorem early_failure_releases_sensor
    (p : dwSensorParams) (env : StartEnv) (c : SensorCamera) :
  fst (env_createSensor env) = DW_SUCCESS ->
  fst (env_getImageProperties env) <> DW_SUCCESS \/
  fst (env_create_rgbaFrame env) <> DW_SUCCESS ->
  let r := exec (start p env) c in
  result_of r = Returned false /\
  released (events_of r) = [SensorHandle (snd (env_createSensor env))] /\
  leaked (events_of r) = [] /\
  filter is_resize_call (events_of r) = [].
Proof.
  intros H1 H23. open_start env. open_camera c. subst. cbv zeta.
  destruct H23 as [H|H]; apply failed_true in H.
  - run_fn. repeat split.
    cbv [leaked released allocated flat_map app].
    cbv [failed dwStatus_eqb negb app filter existsb Resource_eqb orb].
    rewrite Z.eqb_refl. reflexivity.
  - run_fn; repeat split;
      cbv [leaked released allocated flat_map app];
      rewrite ?H, ?E;
      cbv [failed dwStatus_eqb negb app filter existsb Resource_eqb orb];
      rewrite Z.eqb_refl; reflexivity.
Qed.

Lemma early_failure_releases_sensor_witness :
  let r := exec (start Sample.params Sample.start_properties_fail)
                (Sample.camera float_two) in
  result_of r = Returned false /\
  released (events_of r) = [SensorHandle 1] /\
  leaked (events_of r) = [] /\
  filter is_resize_call (events_of r) = [].
Proof.
  apply (early_failure_releases_sensor Sample.params
           Sample.start_properties_fail (Sample.camera float_two)).
  - reflexivity.
  - left. discriminate.
Defined.

(** X4 (failure of [dwImageStreamer_initialize], resize disabled).  [start]
    returns false having destroyed the converted buffer and released the
    sensor, in that order, so nothing it allocated stays allocated; before
    them it destroys whatever non-null handle [m_imageResized] held on
    entry. *)
Theorem streamer_failure_rollback
    (p : dwSensorParams) (env : StartEnv) (c : SensorCamera) :
  float_gt (m_shrinkFactor c) float_one = false ->
  fst (env_createSensor env) = DW_SUCCESS ->
  fst (env_getImageProperties env) = DW_SUCCESS ->
  fst (env_create_rgbaFrame env) = DW_SUCCESS ->
  fst (env_streamer_initialize env) <> DW_SUCCESS ->
  let r := exec (start p env) c in
  result_of r = Returned false /\
  released (events_of r) =
  (if non_null (m_imageResized c) then [ImageBuffer (m_imageResized c)]
   else []) ++
  [ImageBuffer (snd (env_create_rgbaFrame env));
   SensorHandle (snd (env_createSensor env))] /\
  leaked (events_of r) = [].
Proof.
  intros Hgt H1 H2 H3 H5.
  open_start env. open_camera c.
  apply failed_true in H5. subst. cbv zeta.
  run_fn; repeat split;
    cbv [leaked released allocated flat_map app];
    rewrite H5;
    cbv [failed dwStatus_eqb negb app filter existsb Resource_eqb orb];
    rewrite !Z.eqb_refl;
    repeat match goal with
           | |- context [?a =? ?b] => destruct (a =? b)
           end; reflexivity.
Qed.

Lemma streamer_failure_rollback_witness :
  let r := exec (start Sample.params Sample.start_streamer_fails)
                (Sample.camera float_one) in
  result_of r = Returned false /\
  released (events_of r) = [ImageBuffer 2; SensorHandle 1] /\
  leaked (events_of r) = [].
Proof.
  apply (streamer_failure_rollback Sample.params Sample.start_streamer_fails
           (Sample.camera float_one)); try reflexivity.
  discriminate.
Defined.

(** X5 (failure of [dwImageStreamer_initialize], resize enabled).  [start]
    returns false having destroyed the resized buffer, the converted buffer
    and released the sensor, in that order; the transformation engine it
    initialised is the one resource left allocated. *)
Theorem streamer_failure_leaks_engine
    (p : dwSensorParams) (env : StartEnv) (c : SensorCamera) (w h : Z) :
  float_gt (m_shrinkFactor c) float_one = true ->
  fst (env_createSensor env) = DW_SUCCESS ->
  fst (env_getImageProperties env) = DW_SUCCESS ->
  fst (env_create_rgbaFrame env) = DW_SUCCESS ->
  fst (env_transformation_initialize env) = DW_SUCCESS ->
  div_assign (ip_width (snd (env_getImageProperties env)))
             (m_shrinkFactor c) = Some w ->
  div_assign (ip_height (snd (env_getImageProperties env)))
             (m_shrinkFactor c) = Some h ->
  fst (env_create_imageResized env) = DW_SUCCESS ->
  snd (env_create_imageResized env) <> DW_NULL_HANDLE ->
  fst (env_streamer_initialize env) <> DW_SUCCESS ->
  let r := exec (start p env) c in
  result_of r = Returned false /\
  released (events_of r) =
  [ImageBuffer (snd (env_create_imageResized env));
   ImageBuffer (snd (env_create_rgbaFrame env));
   SensorHandle (snd (env_createSensor env))] /\
  leaked (events_of r) =
  [TransformationEngine (snd (env_transformation_initialize env))].
Proof.
  intros Hgt H1 H2 H3 H4 Hw Hh H5 Hnn H6.
  open_start env. open_camera c. apply failed_true in H6. subst.
  destruct props as [W H F]. cbn [ip_width ip_height] in Hw, Hh.
  cbv zeta.
  assert (Enn : non_null resized = true) by (apply non_null_true; exact Hnn).
  unfold_fn.
  repeat (first [ rewrite Hw | rewrite Hh | split_test; try absurd_test ];
          cbv beta iota;
          cbv [out_param set_format set_width set_height ip_width ip_height
               ip_format]).
  repeat split.
  cbv [leaked released allocated flat_map app].
  rewrite H6.
  cbv [failed dwStatus_eqb negb app filter existsb Resource_eqb orb].
  rewrite !Z.eqb_refl, ?orb_true_r. cbn.
  destruct (rgba =? resized); reflexivity.
Qed.

Lemma streamer_failure_leaks_engine_witness :
  let r := exec (start Sample.params Sample.start_streamer_fails)
                (Sample.camera float_two) in
  result_of r = Returned false /\
  released (events_of r) = [ImageBuffer 4; ImageBuffer 2; SensorHandle 1] /\
  leaked (events_of r) = [TransformationEngine 3].
Proof.
  apply (streamer_failure_leaks_engine Sample.params
           Sample.start_streamer_fails (Sample.camera float_two) 960 540);
    try reflexivity; discriminate.
Defined.

(** X6 (the worker and the running flag).  On an object whose thread is
    not joinable, [start] spawns the worker exactly when it returns true;
    it then has set [m_cameraRun] and holds a joinable thread, and in every
    other case it leaves both as they were. *)
Theorem worker_spawned_iff_started
    (p : dwSensorParams) (env : StartEnv) (c : SensorCamera) :
  m_cameraThread c = false ->
  let r := exec (start p env) c in
  (In thread_spawn (events_of r) <-> result_of r = Returned true) /\
  (result_of r = Returned true ->
   m_cameraRun (object_of r) = true /\ m_cameraThread (object_of r) = true) /\
  (result_of r <> Returned true ->
   m_cameraRun (object_of r) = m_cameraRun c /\
   m_cameraThread (object_of r) = false).
Proof.
  intros Hthr. cbv zeta.
  destruct (start_flags p env c) as (H1 & H2 & H3).
  split; [exact H1|]. split; [exact H2|].
  intros H. destruct (H3 H) as [Hr Ht]. rewrite Ht. split; assumption.
Qed.

Lemma worker_spawned_iff_started_witness :
  In thread_spawn
     (events_of (exec (start Sample.params Sample.start_ok)
                      (Sample.camera float_one))) /\
  ~ In thread_spawn
      (events_of (exec (start Sample.params Sample.start_capture_fails)
                       (Sample.camera float_one))).
Proof.
  split.
  - apply (proj1 (worker_spawned_iff_started Sample.params Sample.start_ok
                    (Sample.camera float_one) eq_refl)).
    reflexivity.
  - intros H.
    apply (proj1 (worker_spawned_iff_started Sample.params
                    Sample.start_capture_fails (Sample.camera float_one)
                    eq_refl)) in H.
    discriminate H.
Defined.

(** X7 ([stop] after a failed [start]).  On an object that is not
    running, a [start] that does not return true is followed by a [stop]
    that returns false and makes no call: what such a [start] left
    allocated is not released by [stop]. *)
Theorem failed_start_cannot_be_stopped
    (p : dwSensorParams) (env : StartEnv) (c : SensorCamera) :
  m_cameraRun c = false ->
  result_of (exec (start p env) c) <> Returned true ->
  let c' := object_of (exec (start p env) c) in
  exec stop c' = (Returned false, c', []).
Proof.
  intros Hrun Hfail. cbv zeta. apply stop_not_running.
  destruct (start_flags p env c) as (_ & _ & Hkeep).
  destruct (Hkeep Hfail) as [H _]. rewrite H. exact Hrun.
Qed.

Lemma failed_start_cannot_be_stopped_witness :
  let r := exec (start Sample.params Sample.start_capture_fails)
                (Sample.camera float_one) in
  leaked (events_of r) = [ImageBuffer 2; ChannelRegistration 5] /\
  exec stop (object_of r) = (Returned false, object_of r, []).
Proof.
  cbv zeta. split; [reflexivity|].
  apply (failed_start_cannot_be_stopped Sample.params
           Sample.start_capture_fails (Sample.camera float_one)).
  - reflexivity.
  - discriminate.
Defined.

(** X8 (a whole session, resize disabled).  On a fresh object (thread
    not joinable, no resized buffer) whose SDK handles come back non-null,
    a successful [start], any run of the loop and then [stop]: [stop]
    returns true and clears the running flag, it joins the worker before it
    releases the streamer, the converted buffer and the sensor, and
    afterwards nothing allocated during the session is left allocated. *)
Theorem session_without_resize_leaks_nothing
    (p : dwSensorParams) (env : StartEnv) (script : list FrameEnv)
    (c : SensorCamera) :
  float_gt (m_shrinkFactor c) float_one = false ->
  m_cameraThread c = false ->
  m_imageResized c = DW_NULL_HANDLE ->
  result_of (exec (start p env) c) = Returned true ->
  snd (env_createSensor env) <> DW_NULL_HANDLE ->
  snd (env_create_rgbaFrame env) <> DW_NULL_HANDLE ->
  snd (env_streamer_initialize env) <> DW_NULL_HANDLE ->
  let started := exec (start p env) c in
  let worked := run_camera script (object_of started) in
  let stopped := exec stop (object_of worked) in
  result_of stopped = Returned true /\
  m_cameraRun (object_of stopped) = false /\
  events_of stopped =
  [thread_join;
   dwImageStreamer_release (snd (env_streamer_initialize env));
   dwImage_destroy (snd (env_create_rgbaFrame env));
   dwSAL_releaseSensor (snd (env_createSensor env))] /\
  leaked (events_of started ++ events_of worked ++ events_of stopped) = [].
Proof.
  intros Hgt Hthr Hnull Hok Hs Hr Hst. cbv zeta.
  rewrite run_camera_object.
  destruct (run_camera_resources script (object_of (exec (start p env) c)))
    as [Hla Hlr].
  pose proof (start_success_disabled p env c Hgt Hok) as Hstart.
  cbv zeta in Hstart. rewrite Hstart in *.
  set (sensor := snd (env_createSensor env)) in *.
  set (rgba := snd (env_create_rgbaFrame env)) in *.
  set (streamer := snd (env_streamer_initialize env)) in *.
  unfold object_of, events_of, result_of in *. cbn [fst snd] in *.
  rewrite Hnull in Hla, Hlr |- *.
  apply non_null_true in Hs, Hr, Hst.
  assert (Hstop :
    exec stop
      (mkCamera (m_sdk c) (m_hal c) true sensor rgba DW_NULL_HANDLE
         (m_imageTransformationEngine c) streamer (m_shrinkFactor c) true) =
    (Returned true,
     mkCamera (m_sdk c) (m_hal c) false sensor rgba DW_NULL_HANDLE
         (m_imageTransformationEngine c) streamer (m_shrinkFactor c) false,
     [thread_join; dwImageStreamer_release streamer; dwImage_destroy rgba;
      dwSAL_releaseSensor sensor])).
  { run_fn;
      first [ reflexivity
            | match goal with
              | E : non_null DW_NULL_HANDLE = true |- _ =>
                  cbv in E; discriminate E
              end ]. }
  rewrite Hstop. cbn [fst snd m_cameraRun].
  repeat split.
  rewrite leaked_session by (exact Hla || exact Hlr || reflexivity).
  cbv [allocated released flat_map app failed dwStatus_eqb negb filter
       existsb Resource_eqb orb].
  rewrite !Z.eqb_refl, ?orb_true_r. reflexivity.
Qed.

Lemma session_without_resize_leaks_nothing_witness :
  let started := exec (start Sample.params Sample.start_ok)
                      (Sample.camera float_one) in
  let worked :=
    run_camera [Sample.frame_ok 1500250 2;
                Sample.frame_read DW_END_OF_STREAM]
               (object_of started) in
  let stopped := exec stop (object_of worked) in
  result_of worked = Broke /\
  result_of stopped = Returned true /\
  m_cameraRun (object_of stopped) = false /\
  events_of stopped =
  [thread_join; dwImageStreamer_release 5; dwImage_destroy 2;
   dwSAL_releaseSensor 1] /\
  leaked (events_of started ++ events_of worked ++ events_of stopped) = [].
Proof.
  cbv zeta. split; [reflexivity|].
  apply (session_without_resize_leaks_nothing Sample.params Sample.start_ok
           [Sample.frame_ok 1500250 2; Sample.frame_read DW_END_OF_STREAM]
           (Sample.camera float_one));
    try reflexivity; discriminate.
Defined.



(** X10 (factor 2.0).  For every dimension below 8192, dividing by the
    shrink factor 2.0 as [start] does yields half the dimension, rounded
    down. *)
Theorem factor_two_halves (x : Z) :
  0 <= x < 8192 -> div_assign x float_two = Some (x / 2).
Proof.
  intros Hx.
  pose proof (all_below_spec halves (Z.to_nat 8192) halves_below_8192 x) as H.
  rewrite Z2Nat.id in H by lia. specialize (H Hx).
  unfold halves in H.
  destruct (div_assign x float_two) as [y|]; [|discriminate H].
  apply Z.eqb_eq in H. now subst.
Qed.

Lemma factor_two_halves_witness :
  div_assign 3840 float_two = Some 1920 /\
  div_assign 2161 float_two = Some 1080.
Proof.
  split.
  - apply (factor_two_halves 3840). lia.
  - apply (factor_two_halves 2161). lia.
Defined.

(** X18 (failure to create the resized buffer).  With the resize enabled,
    when the sensor, the image properties, the converted buffer and the
    transformation engine were obtained and [dwImage_create] for the resized
    buffer fails, [start] does not return: [CHECK_DW_ERROR] throws.  Nothing
    is released, so the sensor, the converted buffer and the engine stay
    allocated; the worker is not spawned and the running flag is not
    touched. *)
Theorem resized_buffer_failure_throws
    (p : dwSensorParams) (env : StartEnv) (c : SensorCamera) (w h : Z) :
  float_gt (m_shrinkFactor c) float_one = true ->
  fst (env_createSensor env) = DW_SUCCESS ->
  fst (env_getImageProperties env) = DW_SUCCESS ->
  fst (env_create_rgbaFrame env) = DW_SUCCESS ->
  fst (env_transformation_initialize env) = DW_SUCCESS ->
  div_assign (ip_width (snd (env_getImageProperties env)))
             (m_shrinkFactor c) = Some w ->
  div_assign (ip_height (snd (env_getImageProperties env)))
             (m_shrinkFactor c) = Some h ->
  fst (env_create_imageResized env) <> DW_SUCCESS ->
  let r := exec (start p env) c in
  result_of r = Threw /\
  released (events_of r) = [] /\
  leaked (events_of r) =
  [SensorHandle (snd (env_createSensor env));
   ImageBuffer (snd (env_create_rgbaFrame env));
   TransformationEngine (snd (env_transformation_initialize env))] /\
  ~ In thread_spawn (events_of r) /\
  m_cameraRun (object_of r) = m_cameraRun c.
Proof.
  intros Hgt H1 H2 H3 H4 Hw Hh H5.
  open_start env. open_camera c. apply failed_true in H5. subst.
  destruct props as [W H F]. cbn [ip_width ip_height] in Hw, Hh.
  cbv zeta. unfold_fn.
  repeat (first [ rewrite Hw | rewrite Hh | split_test; try absurd_test ];
          cbv beta iota;
          cbv [out_param set_format set_width set_height ip_width ip_height
               ip_format]).
  split; [reflexivity|]. split; [reflexivity|]. split; [|split].
  - cbv [leaked released allocated flat_map app].
    rewrite H5.
    cbv [failed dwStatus_eqb negb app filter existsb Resource_eqb orb].
    reflexivity.
  - cbn [In]. intros Hin.
    repeat match goal with
           | H : _ \/ _ |- _ => destruct H as [H|H]
           end; try discriminate; assumption.
  - reflexivity.
Qed.

Lemma resized_buffer_failure_throws_witness :
  let r :=
    exec (start Sample.params
            (mkStartEnv (DW_SUCCESS, 1)
               (DW_SUCCESS, mkProps 1920 1080 (DW_IMAGE_FORMAT_NATIVE 1))
               (DW_SUCCESS, 2) (DW_SUCCESS, 3) (DW_OTHER 7, 4)
               (DW_SUCCESS, 5) DW_SUCCESS))
         (Sample.camera float_two) in
  result_of r = Threw /\
  released (events_of r) = [] /\
  leaked (events_of r) =
  [SensorHandle 1; ImageBuffer 2; TransformationEngine 3].
Proof.
  cbv zeta.
  destruct (resized_buffer_failure_throws Sample.params
              (mkStartEnv (DW_SUCCESS, 1)
                 (DW_SUCCESS, mkProps 1920 1080 (DW_IMAGE_FORMAT_NATIVE 1))
                 (DW_SUCCESS, 2) (DW_SUCCESS, 3) (DW_OTHER 7, 4)
                 (DW_SUCCESS, 5) DW_SUCCESS)
              (Sample.camera float_two) 960 540
              eq_refl eq_refl eq_refl eq_refl eq_refl eq_refl eq_refl
              (fun H => eq_ind (DW_OTHER 7)
                          (fun s => match s with
                                    | DW_OTHER _ => True
                                    | _ => False
                                    end) I DW_SUCCESS H))
    as (Hr & Hrel & Hleak & _).
  split; [exact Hr|]. split; [exact Hrel|exact Hleak].
Defined.

(* ================================================================== *)
(** ** Further properties of the acquisition loop *)

(** X11 (the loop and the object).  Whatever the environment answers,
    [run_camera] writes no field of the object and neither creates nor
    releases a sensor, an image or a streamer. *)
Theorem run_camera_keeps_resources
    (script : list FrameEnv) (c : SensorCamera) :
  object_of (run_camera script c) = c /\
  allocated (events_of (run_camera script c)) = [] /\
  released (events_of (run_camera script c)) = [].
Proof.
  split; [apply run_camera_object|apply run_camera_resources].
Qed.

(** X12 (frames over a whole run).  In every run of the loop the frames
    are returned in the order they were read, one frame is returned for
    each message published, and at most the frame read last is never
    returned; when the loop ends because the running flag was cleared, or
    has not ended, every frame read has been returned. *)
Theorem frames_returned_in_order (script : list FrameEnv) (c : SensorCamera) :
  List.length (published (events_of (run_camera script c))) =
  List.length (returned_frames (events_of (run_camera script c))) /\
  exists lost : list handle,
    read_frames (events_of (run_camera script c)) =
    returned_frames (events_of (run_camera script c)) ++ lost /\
    (List.length lost <= 1)%nat /\
    (result_of (run_camera script c) = FlagCleared \/
     result_of (run_camera script c) = StillRunning -> lost = []).
Proof.
  split; [apply published_count|].
  induction script as [|env rest (lost & IHeq & IHlen & IHnil)].
  - exists []. repeat split; auto.
  - destruct (env_cameraRun env) eqn:Hrun.
    + rewrite (run_camera_cons env rest c Hrun).
      pose proof (loop_body_frames env c) as Hf. cbv zeta in Hf.
      destruct (result_of (loop_body env c)) as [u|[ | |b| | ]];
        cbv [events_of result_of fst snd] in *;
        try (destruct Hf as [Hr Hret];
             exists lost;
             rewrite read_frames_app, returned_frames_app, Hr, Hret, IHeq;
             repeat split; auto; fail);
        destruct Hf as [[Hr|Hr] Hret]; rewrite Hr, Hret;
        eexists; (split; [reflexivity|]); (split; [simpl; lia|]);
        intros [H|H]; discriminate H.
    + rewrite (run_camera_stop env rest c Hrun).
      exists []. repeat split; auto.
Qed.

Lemma frames_returned_in_order_witness :
  let ev := events_of (run_camera [Sample.frame_ok 1500250 2;
                                   Sample.frame_convert_fails]
                                  (Sample.running float_one)) in
  read_frames ev = [10; 10] /\ returned_frames ev = [10] /\
  List.length (published ev) = List.length (returned_frames ev).
Proof.
  cbv zeta. split; [reflexivity|]. split; [reflexivity|].
  exact (proj1 (frames_returned_in_order
                  [Sample.frame_ok 1500250 2; Sample.frame_convert_fails]
                  (Sample.running float_one))).
Defined.

(** X13 (use of the streamer over a whole run).  In every run of the loop
    the streamer operations are one full cycle (producer send, consumer
    receive, consumer return, producer return) per published message,
    followed by nothing or by an unfinished cycle (a send, or a send and a
    receive); an unfinished cycle occurs only when the loop was left by
    [break] or by the exception. *)
Theorem channel_single_slot (script : list FrameEnv) (c : SensorCamera) :
  exists tail : list ChannelOp,
    channel_ops (events_of (run_camera script c)) =
    List.concat
      (List.repeat channel_cycle
         (List.length (published (events_of (run_camera script c)))))
    ++ tail /\
    (tail = [] \/ tail = [ProducerSend] \/
     tail = [ProducerSend; ConsumerReceive]) /\
    (tail <> [] ->
     result_of (run_camera script c) = Broke \/
     result_of (run_camera script c) = Thrown).
Proof.
  induction script as [|env rest (tail & IHeq & IHtail & IHend)].
  - exists []. repeat split; auto. intros H. now elim H.
  - destruct (env_cameraRun env) eqn:Hrun.
    + rewrite (run_camera_cons env rest c Hrun).
      pose proof (loop_body_channel env c) as Hc. cbv zeta in Hc.
      pose proof (loop_body_published env c) as Hp.
      destruct (loop_body_result env c) as [Hres|[Hres|[Hres|Hres]]];
        rewrite Hres in *; cbv [events_of result_of fst snd] in *.
      * exists tail.
        rewrite channel_ops_app, published_app, Hc, Hp, IHeq.
        cbn [List.length app List.repeat List.concat].
        rewrite <- app_assoc. repeat split; auto.
      * exists tail.
        rewrite channel_ops_app, published_app, Hc, Hp, IHeq.
        repeat split; auto.
      * rewrite Hp. exists (channel_ops (snd (loop_body env c))).
        repeat split; auto.
      * rewrite Hp. exists (channel_ops (snd (loop_body env c))).
        repeat split; auto.
    + rewrite (run_camera_stop env rest c Hrun).
      exists []. repeat split; auto. intros H. now elim H.
Qed.

Lemma channel_single_slot_witness :
  let run := run_camera [Sample.frame_ok 1500250 2; Sample.frame_send_fails]
                        (Sample.running float_one) in
  channel_ops (events_of run) = channel_cycle ++ [ProducerSend] /\
  exists tail : list ChannelOp,
    channel_ops (events_of run) =
    List.concat
      (List.repeat channel_cycle (List.length (published (events_of run))))
    ++ tail /\
    (tail = [] \/ tail = [ProducerSend] \/
     tail = [ProducerSend; ConsumerReceive]) /\
    (tail <> [] -> result_of run = Broke \/ result_of run = Thrown).
Proof.
  cbv zeta. split; [reflexivity|].
  exact (channel_single_slot
           [Sample.frame_ok 1500250 2; Sample.frame_send_fails]
           (Sample.running float_one)).
Defined.

(** X14 (a timed-out or not-ready read).  An iteration whose read times
    out or is not ready can be taken out of any run without changing how
    the loop ends, the messages published, the frames read and returned, or
    the streamer operations. *)
Theorem transient_read_is_skipped
    (pre post : list FrameEnv) (env : FrameEnv) (c : SensorCamera) :
  transient env ->
  let with_it := run_camera (pre ++ env :: post) c in
  let without := run_camera (pre ++ post) c in
  result_of with_it = result_of without /\
  published (events_of with_it) = published (events_of without) /\
  read_frames (events_of with_it) = read_frames (events_of without) /\
  returned_frames (events_of with_it) = returned_frames (events_of without) /\
  channel_ops (events_of with_it) = channel_ops (events_of without).
Proof.
  intros [Hrun Hst]. cbv zeta.
  induction pre as [|e pre (IH1 & IH2 & IH3 & IH4 & IH5)]; cbn [app].
  - rewrite (run_camera_cons env post c Hrun).
    pose proof (proj2 (loop_body_continue_iff env c) Hst) as Hres.
    rewrite (loop_body_continue_events env c Hres), Hres.
    destruct Hst as [H | H]; rewrite H;
      cbv [events_of result_of fst snd app published read_frames
           returned_frames channel_ops flat_map];
      repeat split.
  - destruct (env_cameraRun e) eqn:He.
    + rewrite !(run_camera_cons e _ c He).
      destruct (result_of (loop_body e c)) as [u|[ | |b| | ]];
        cbv [events_of result_of fst snd] in *;
        rewrite ?published_app, ?read_frames_app, ?returned_frames_app,
                ?channel_ops_app, ?IH2, ?IH3, ?IH4, ?IH5;
        repeat split; auto.
    + rewrite !(run_camera_stop e _ c He). repeat split.
Qed.

Lemma transient_read_is_skipped_witness :
  let c := Sample.running float_one in
  map header_stamp_sec
    (published
       (events_of
          (run_camera ([Sample.frame_ok 1500250 2] ++
                       Sample.frame_read DW_TIME_OUT ::
                       [Sample.frame_ok 2500250 2]) c))) = [1; 2] /\
  published
    (events_of
       (run_camera ([Sample.frame_ok 1500250 2] ++
                    Sample.frame_read DW_TIME_OUT ::
                    [Sample.frame_ok 2500250 2]) c)) =
  published
    (events_of
       (run_camera ([Sample.frame_ok 1500250 2] ++
                    [Sample.frame_ok 2500250 2]) c)).
Proof.
  cbv zeta. split; [reflexivity|].
  exact (proj1 (proj2
    (transient_read_is_skipped [Sample.frame_ok 1500250 2]
       [Sample.frame_ok 2500250 2] (Sample.frame_read DW_TIME_OUT)
       (Sample.running float_one) (conj eq_refl (or_introl eq_refl))))).
Defined.

(** X15 (cooperative stop).  Once the loop test reads the running flag as
    false the loop has ended, and nothing scripted after that point is
    run: the run is the same whatever follows. *)
Theorem cleared_flag_ends_loop
    (pre rest : list FrameEnv) (env : FrameEnv) (c : SensorCamera) :
  env_cameraRun env = false ->
  run_camera (pre ++ env :: rest) c = run_camera (pre ++ [env]) c /\
  result_of (run_camera (pre ++ env :: rest) c) <> StillRunning.
Proof.
  intros Hrun.
  induction pre as [|e pre [IH1 IH2]]; cbn [app].
  - rewrite !(run_camera_stop env _ c Hrun). split; [reflexivity|].
    discriminate.
  - destruct (env_cameraRun e) eqn:He.
    + rewrite !(run_camera_cons e _ c He), IH1.
      split; [reflexivity|].
      rewrite <- IH1.
      destruct (result_of (loop_body e c)) as [u|[ | |b| | ]];
        cbv [result_of fst] in *; try exact IH2; discriminate.
    + rewrite !(run_camera_stop e _ c He). split; [reflexivity|].
      discriminate.
Qed.

Lemma cleared_flag_ends_loop_witness :
  let c := Sample.running float_one in
  run_camera ([Sample.frame_ok 1500250 2] ++
              Sample.frame_stop :: [Sample.frame_ok 2500250 2]) c =
  run_camera ([Sample.frame_ok 1500250 2] ++ [Sample.frame_stop]) c /\
  result_of (run_camera ([Sample.frame_ok 1500250 2] ++
                         Sample.frame_stop :: [Sample.frame_ok 2500250 2]) c)
  = FlagCleared.
Proof.
  cbv zeta. split; [|reflexivity].
  exact (proj1
    (cleared_flag_ends_loop [Sample.frame_ok 1500250 2]
       [Sample.frame_ok 2500250 2] Sample.frame_stop
       (Sample.running float_one) eq_refl)).
Defined.

(** X16 (a failed checked call after the read).  In an iteration the loop
    enters whose read succeeds, if any of the checked calls
    ([dwSensorCamera_getImage], [dwImage_copyConvert], the producer send,
    the consumer receive, [dwImage_getProperties], [dwImage_getCPU]) fails,
    the loop is left in that iteration by [break] or by the exception, the
    iteration publishes nothing and no later iteration is run. *)
Theorem checked_failure_ends_loop
    (env : FrameEnv) (rest : list FrameEnv) (c : SensorCamera) :
  env_cameraRun env = true ->
  fst (env_readFrame env) = DW_SUCCESS ->
  ~ pipeline_ok env ->
  (result_of (run_camera (env :: rest) c) = Broke \/
   result_of (run_camera (env :: rest) c) = Thrown) /\
  events_of (run_camera (env :: rest) c) = events_of (loop_body env c) /\
  published (events_of (run_camera (env :: rest) c)) = [].
Proof.
  intros Hrun Hread Hnok.
  rewrite (run_camera_cons env rest c Hrun).
  pose proof (loop_body_published env c) as Hp.
  destruct (loop_body_result env c) as [Hres|[Hres|[Hres|Hres]]].
  - apply loop_body_ok_iff in Hres. contradiction.
  - apply loop_body_continue_iff in Hres.
    rewrite Hread in Hres. destruct Hres as [H|H]; discriminate H.
  - rewrite Hres in *. cbv [result_of events_of fst snd] in *. auto.
  - rewrite Hres in *. cbv [result_of events_of fst snd] in *. auto.
Qed.

Lemma checked_failure_ends_loop_witness :
  let c := Sample.running float_one in
  let run := run_camera [Sample.frame_convert_fails;
                         Sample.frame_ok 2500250 2] c in
  (result_of run = Broke \/ result_of run = Thrown) /\
  events_of run = events_of (loop_body Sample.frame_convert_fails c) /\
  published (events_of run) = [].
Proof.
  apply (checked_failure_ends_loop Sample.frame_convert_fails
           [Sample.frame_ok 2500250 2] (Sample.running float_one)).
  - reflexivity.
  - reflexivity.
  - intros (_ & _ & H & _). discriminate H.
Defined.

(** X17 (size of the payload).  When the received buffer's width and
    height are 32-bit values with [4 * width * height < 2^32] and the host
    buffer holds at least that many bytes, the message's payload is the
    first [4 * width * height] bytes of the host buffer, and the message is
    marked little-endian. *)
Theorem payload_size (env : FrameEnv) :
  let w := ip_width (snd (env_getProperties env)) in
  let h := ip_height (snd (env_getProperties env)) in
  let px := snd (env_getCPU env) in
  0 <= w < 2 ^ 32 -> 0 <= h < 2 ^ 32 -> 4 * w * h < 2 ^ 32 ->
  4 * w * h <= Z.of_nat (List.length px) ->
  data (image_of env) = firstn (Z.to_nat (4 * w * h)) px /\
  Z.of_nat (List.length (data (image_of env))) = 4 * w * h /\
  is_bigendian (image_of env) = 0.
Proof.
  cbv zeta. intros Hw Hh Hsz Hlen.
  cbv [image_of build_image fillImage data step height is_bigendian].
  set (w := ip_width (snd (env_getProperties env))) in *.
  set (h := ip_height (snd (env_getProperties env))) in *.
  rewrite (uint32_small h) by exact Hh.
  rewrite uint32_idem.
  destruct (Z.eq_dec h 0) as [H0|H0].
  - rewrite H0, !Z.mul_0_r. cbn. repeat split.
  - assert (H4w : 0 <= 4 * w < 2 ^ 32).
    { split; [lia|]. apply Z.le_lt_trans with (4 * w * h); [nia|exact Hsz]. }
    rewrite (uint32_small (4 * w)) by exact H4w.
    rewrite (uint32_small (4 * w * h)) by lia.
    split; [reflexivity|]. split; [|reflexivity].
    rewrite length_firstn. lia.
Qed.

Lemma payload_size_witness :
  data (image_of (Sample.frame_ok 1500250 2)) =
  [x01; x02; x03; x04; x05; x06; x07; x08]%list /\
  Z.of_nat (List.length (data (image_of (Sample.frame_ok 1500250 2)))) = 8.
Proof.
  assert (Hw : 0 <= 2 < 2 ^ 32) by (cbv; split; [discriminate|reflexivity]).
  assert (Hh : 0 <= 1 < 2 ^ 32) by (cbv; split; [discriminate|reflexivity]).
  assert (Hs : 4 * 2 * 1 < 2 ^ 32) by reflexivity.
  assert (Hl : 4 * 2 * 1 <= Z.of_nat (List.length Sample.pixels))
    by (cbv; discriminate).
  destruct (payload_size (Sample.frame_ok 1500250 2) Hw Hh Hs Hl)
    as (Hd & Hn & _).
  split; [exact Hd|exact Hn].
Defined.
